(** * Instructor router of the enrollment service

    A shallow embedding of [enrollment_service/instructor_router.py]:
    the three read handlers ([get_current_enrollment], [get_waitlist],
    [get_droplist]) over the wide-column roster store and the sorted-set
    waitlist store, and the administrative drop ([drop_class]) over the
    relational store reached through a [sqlite3] connection.

    Handlers are computations in a state-and-exception monad.  The state
    holds the three datastores and a trace of the datastore calls the
    handler issued, so that statements about the order of calls ("before
    any query", "after the commit") can be made. *)

From Stdlib Require Import ZArith String Ascii List DecimalString.
From stdpp Require Import base gmap list strings.

Local Open Scope Z_scope.

(** ** Python values that cross the handler boundary *)

(** JSON bodies: the handlers only build strings, arrays and objects. *)
#[local] Set Warnings "-register-all".
Inductive json :=
| JStr (s : string)
| JArr (l : list json)
| JObj (fields : list (string * json)).

(** [http.HTTPStatus] / [fastapi.status] members the router names. *)
Definition HTTP_200_OK : Z := 200.
Definition BAD_REQUEST : Z := 400.
Definition HTTP_404_NOT_FOUND : Z := 404.
Definition HTTP_409_CONFLICT : Z := 409.

(** The classes of the [sqlite3] exception hierarchy. *)
Inductive sqlite3_error :=
| Error | InterfaceError | DatabaseError | DataError | OperationalError
| IntegrityError | InternalError | ProgrammingError | NotSupportedError.

(** [type(e).__name__] *)
Definition type_name (k : sqlite3_error) : string :=
  match k with
  | Error => "Error" | InterfaceError => "InterfaceError"
  | DatabaseError => "DatabaseError" | DataError => "DataError"
  | OperationalError => "OperationalError"
  | IntegrityError => "IntegrityError" | InternalError => "InternalError"
  | ProgrammingError => "ProgrammingError"
  | NotSupportedError => "NotSupportedError"
  end.

(** [isinstance(e, sqlite3.IntegrityError)]: the class has no subclass. *)
Definition is_IntegrityError (k : sqlite3_error) : bool :=
  match k with IntegrityError => true | _ => false end.

(** The [detail] argument of [HTTPException]: a plain string, or the
    dict [{"type": ..., "msg": ...}] built in the [except] clause. *)
Inductive detail :=
| DetailStr (s : string)
| DetailTypeMsg (type msg : string).

Inductive exn :=
| HTTPException (status_code : Z) (d : detail)
| Sqlite3Error (kind : sqlite3_error) (msg : string)
| PyException (name msg : string).

Inductive Result (A : Type) :=
| Returns (a : A)
| Raises (e : exn).
Arguments Returns {A} a.
Arguments Raises {A} e.

(** [JSONResponse(status_code=..., content=...)] *)
Record Response := JSONResponse { status_code : Z; content : json }.

(** [models.Personnel] is outside this module; the router reads only
    its [cwid]. *)
Record Personnel := { cwid : Z }.

(** ** The roster store (wide-column) *)

(** Attribute values: strings and numbers. *)
Inductive attr :=
| AttrS (s : string)
| AttrN (n : Z).

#[global] Instance attr_eq_dec : EqDecision attr.
Proof. solve_decision. Defined.

(** [str(x)] on an attribute value. *)
Definition py_str (v : attr) : string :=
  match v with
  | AttrS s => s
  | AttrN n => NilZero.string_of_int (Z.to_int n)
  end.

(** The [query_params] dict handed to [db.query]: conjunctions of
    [Key(k).eq(v)] and of [Attr(k).eq(v)], an optional index and an
    optional projection. *)
Record query_params := {
  IndexName : option string;
  KeyConditionExpression : list (string * attr);
  FilterExpression : list (string * attr);
  ProjectionExpression : option (list string) }.

Definition satisfies (conds : list (string * attr)) (it : gmap string attr) : bool :=
  forallb (fun kv => bool_decide (it !! kv.1 = Some kv.2)) conds.

Definition project (proj : option (list string)) (it : gmap string attr)
  : gmap string attr :=
  match proj with
  | None => it
  | Some ks => filter (fun kv => kv.1 ∈ ks) it
  end.

(** Modelled from the spec: the [query] method of the object yielded by
    [get_dynamo] (module [Dynamo], not in this file) - "queried by
    composite key (term, class) with optional filters/projections/
    secondary indexes".  It returns the list of items of the table that
    meet the key condition and the filter, projected.  An index holds the
    items carrying its key attributes, which the key condition demands
    anyway, so the index name does not change the result. *)
Definition dynamo_query (tables : gmap string (list (gmap string attr)))
    (tablename : string) (q : query_params) : list (gmap string attr) :=
  map (project (ProjectionExpression q))
      (List.filter
         (fun it => satisfies (KeyConditionExpression q) it
                    && satisfies (FilterExpression q) it)
         (tables !!! tablename)).

(** ** The waitlist store (sorted sets) *)

(** Modelled from the spec: [zrange(name, start, stop)] of the client
    yielded by [get_redis] - "range reads" of an ordered set.  A set is
    kept as the list of its members by ascending rank; the bounds are
    non-negative indexes, both inclusive, and a missing key is the empty
    set. *)
Definition zrange (sets : gmap string (list string)) (name : string)
    (start stop : Z) : list string :=
  take (Z.to_nat (stop - start + 1)) (drop (Z.to_nat start) (sets !!! name)).

(** ** The relational store behind the [sqlite3] connection *)

Record class_row := { c_id : Z; c_instructor_id : Z }.
Record enrollment_row := { e_class_id : Z; e_student_id : Z }.
Record droplist_row := {
  d_class_id : Z; d_student_id : Z; drop_date : string; administrative : Z }.

Record Tables := {
  class : list class_row;
  enrollment : list enrollment_row;
  droplist : list droplist_row }.

(** A connection in Python's default transaction mode: a data-changing
    statement opens a transaction if none is open and works on the
    connection's own view ([working]), which [commit] makes durable
    ([committed]).  [locked] says that another connection holds the
    write lock for longer than the busy timeout, in which case a
    statement raises [sqlite3.OperationalError].  Identifiers are taken
    within the range of an SQLite integer. *)
Record Connection := {
  committed : Tables;
  working : Tables;
  locked : bool }.

(** The two statements the router executes, with their [?] parameters
    in order. *)
Inductive statement :=
| DeleteEnrollment (p1 p2 p3 p4 : Z)
| InsertDroplist (p1 p2 : Z).

(** ** Worlds, traces and the handler monad *)

Record World := {
  dynamo : gmap string (list (gmap string attr));
  redis : gmap string (list string);
  sql : Connection;
  clock : string }.

(** One entry per call that leaves the handler. *)
Inductive event :=
| EvDynamoQuery (tablename : string) (q : query_params)
| EvRedisZrange (name : string) (start stop : Z)
| EvExecute (s : statement)
| EvCommit (durable : Tables)
| EvIsAutoEnrollEnabled (db : Connection)
| EvEnrollFromWaitlist (db : Connection) (class_ids : list Z).

Record State := { world : World; trace : list event }.

Definition M (A : Type) : Type := State -> Result A * State.

Definition ret {A} (a : A) : M A := fun st => (Returns a, st).

Definition raise {A} (e : exn) : M A := fun st => (Raises e, st).

Definition bind {A B} (m : M A) (k : A -> M B) : M B :=
  fun st =>
    match m st with
    | (Returns a, st') => k a st'
    | (Raises e, st') => (Raises e, st')
    end.

(** [try: body except ...: handler] *)
Definition try_except {A} (body : M A) (handler : exn -> M A) : M A :=
  fun st =>
    match body st with
    | (Returns a, st') => (Returns a, st')
    | (Raises e, st') => handler e st'
    end.

Declare Scope handler_scope.
Delimit Scope handler_scope with handler.
Notation "x <- m ;; k" := (bind m (fun x => k))
  (at level 100, m at next level, right associativity) : handler_scope.
Notation "m ;;; k" := (bind m (fun _ => k))
  (at level 100, right associativity) : handler_scope.

Definition record (ev : event) : M unit :=
  fun st => (Returns tt, {| world := world st; trace := trace st ++ [ev] |}).

Definition get_world : M World := fun st => (Returns (world st), st).

(** The world with the connection in state [c]. *)
Definition with_sql (w : World) (c : Connection) : World :=
  {| dynamo := dynamo w; redis := redis w; sql := c; clock := clock w |}.

Definition put_sql (c : Connection) : M unit :=
  fun st => (Returns tt, {| world := with_sql (world st) c; trace := trace st |}).

(** A computation that does not touch the state. *)
Definition lift {A} (r : Result A) : M A := fun st => (r, st).

(** [list(map(f, xs))] where [f] may raise: the first failure wins. *)
Fixpoint map_result {A B} (f : A -> Result B) (xs : list A) : Result (list B) :=
  match xs with
  | [] => Returns []
  | x :: xs' =>
      match f x with
      | Raises e => Raises e
      | Returns y =>
          match map_result f xs' with
          | Raises e => Raises e
          | Returns ys => Returns (y :: ys)
          end
      end
  end.

(** [d[key]] on a dict: [KeyError] when the key is missing. *)
Definition getitem (d : gmap string attr) (key : string) : Result attr :=
  match d !! key with
  | Some v => Returns v
  | None => Raises (PyException "KeyError" key)
  end.

(** [s.split(sep)] for a one-character separator: the pieces between
    the occurrences of [sep], empty pieces included. *)
Fixpoint split (sep : ascii) (s : string) : list string :=
  match s with
  | EmptyString => [EmptyString]
  | String c rest =>
      if Ascii.eqb c sep then EmptyString :: split sep rest
      else match split sep rest with
           | p :: ps => String c p :: ps
           | [] => [String c EmptyString]
           end
  end.

(** ** Statements of the relational store *)

(** The [WHERE] clause of the conditional delete:
    [class_id = ?1 AND student_id = ?2 AND class_id IN
     (SELECT id FROM "class" WHERE id = ?3 AND instructor_id = ?4)]. *)
Definition delete_where (t : Tables) (p1 p2 p3 p4 : Z) (e : enrollment_row) : bool :=
  (e_class_id e =? p1) && (e_student_id e =? p2)
  && existsb (fun k => e_class_id e =? k)
       (map c_id
          (List.filter (fun c => (c_id c =? p3) && (c_instructor_id c =? p4))
             (class t))).

(** [sqlite3.Cursor]: the router reads only [rowcount]. *)
Record Cursor := { rowcount : Z }.

Section Relational.

(** The table declarations are not part of this module.  What they
    contribute to the router is whether a new droplist row breaks a
    uniqueness or foreign-key constraint, and with which message. *)
Variable droplist_violation : Tables -> droplist_row -> option string.

(** One statement on the connection's view of the tables; [now] is
    what [datetime('now')] reads. *)
Definition run_statement (s : statement) (now : string) (t : Tables)
  : Result (Z * Tables) :=
  match s with
  | DeleteEnrollment p1 p2 p3 p4 =>
      let hit := delete_where t p1 p2 p3 p4 in
      Returns (Z.of_nat (length (List.filter hit (enrollment t))),
               {| class := class t;
                  enrollment := List.filter (fun e => negb (hit e)) (enrollment t);
                  droplist := droplist t |})
  | InsertDroplist p1 p2 =>
      let row := {| d_class_id := p1; d_student_id := p2;
                    drop_date := now; administrative := 1 |} in
      match droplist_violation t row with
      | Some msg => Raises (Sqlite3Error IntegrityError msg)
      | None =>
          Returns (1, {| class := class t; enrollment := enrollment t;
                         droplist := droplist t ++ [row] |})
      end
  end.

(** [db.execute(sql, params)].  A failed statement leaves the open
    transaction as it was. *)
Definition execute (s : statement) : M Cursor :=
  (record (EvExecute s) ;;;
   w <- get_world ;;
   if locked (sql w)
   then raise (Sqlite3Error OperationalError "database is locked")
   else match run_statement s (clock w) (working (sql w)) with
        | Raises e => raise e
        | Returns (n, t') =>
            put_sql {| committed := committed (sql w); working := t';
                       locked := locked (sql w) |} ;;;
            ret {| rowcount := n |}
        end)%handler.

(** [db.commit()] *)
Definition commit : M unit :=
  (w <- get_world ;;
   put_sql {| committed := working (sql w); working := working (sql w);
              locked := locked (sql w) |} ;;;
   record (EvCommit (working (sql w))))%handler.

(** The two functions imported from [enrollment_helper] are not part
    of this module: they are taken as they come, as computations on
    the world that return or raise. *)
Variable is_auto_enroll_enabled : World -> Result bool * World.
Variable enroll_students_from_waitlist : list Z -> World -> Result unit * World.

(** A call of such a function with the connection [db]; the trace
    keeps the connection as the callee receives it. *)
Definition call {A} (ev : Connection -> event) (h : World -> Result A * World)
  : M A :=
  fun st =>
    let (r, w') := h (world st) in
    (r, {| world := w'; trace := trace st ++ [ev (sql (world st))] |}).

(** The [except sqlite3.IntegrityError as e] clause. *)
Definition except_IntegrityError {A} (e : exn) : M A :=
  match e with
  | Sqlite3Error k msg =>
      if is_IntegrityError k
      then raise (HTTPException HTTP_409_CONFLICT
                    (DetailTypeMsg (type_name k) msg))
      else raise e
  | _ => raise e
  end.

(** [DELETE /enrollment/{class_id}/{student_id}/administratively/];
    the status of the returned dict is the route's
    [status_code=status.HTTP_200_OK]. *)
Definition drop_class (class_id student_id instructor_id : Z) : M Response :=
  (try_except
     (curr <- execute (DeleteEnrollment class_id student_id class_id instructor_id) ;;
      (if rowcount curr =? 0
       then raise (HTTPException HTTP_404_NOT_FOUND (DetailStr "Record Not Found"))
       else ret tt) ;;;
      execute (InsertDroplist class_id student_id) ;;;
      commit ;;;
      enabled <- call EvIsAutoEnrollEnabled is_auto_enroll_enabled ;;
      (if enabled : bool
       then call (fun db => EvEnrollFromWaitlist db [class_id])
              (enroll_students_from_waitlist [class_id])
       else ret tt))
     except_IntegrityError ;;;
   ret (JSONResponse HTTP_200_OK
          (JObj [("detail", JStr "Item deleted successfully")])))%handler.

End Relational.

(** ** The read handlers *)

(** What a call of [db.query] comes back with: the items found, or the
    engine's refusal of the request, which the client library raises as
    [ClientError]. *)
Inductive query_answer :=
| Items (items : list (gmap string attr))
| Refused (error : string).

Section ReadHandlers.

(** The [query] method of the [db] a handler is given
    ([db: Any = Depends(get_dynamo)]), on the tables of the roster
    store. *)
Variable query :
  gmap string (list (gmap string attr)) -> string -> query_params -> query_answer.

(** [Dynamo.DYNAMO_TABLENAMES], a dict defined outside this module:
    its entries for the keys the handlers index. *)
Variable DYNAMO_TABLENAMES : string -> string.

(** [bytes.decode("utf-8")]; [None] when the bytes are not UTF-8. *)
Variable utf8_decode : string -> option string.

Definition decode (x : string) : Result string :=
  match utf8_decode x with
  | Some s => Returns s
  | None => Raises (PyException "UnicodeDecodeError" x)
  end.

(** [db.query(tablename=..., query_params=...)] *)
Definition db_query_with (tablename : string) (q : query_params)
  : M (list (gmap string attr)) :=
  (record (EvDynamoQuery tablename q) ;;;
   w <- get_world ;;
   match query (dynamo w) tablename q with
   | Items items => ret items
   | Refused error => raise (PyException "ClientError" error)
   end)%handler.

(** [db_redis.zrange(name, start, stop)] *)
Definition db_redis_zrange (name : string) (start stop : Z) : M (list string) :=
  (record (EvRedisZrange name start stop) ;;;
   w <- get_world ;;
   ret (zrange (redis w) name start stop))%handler.

Definition invalid_class_term : exn :=
  HTTPException BAD_REQUEST
    (DetailStr "invalid class term. class term must be in the format of $term_$class").

Definition class_information_not_found : exn :=
  HTTPException HTTP_404_NOT_FOUND (DetailStr "class information not found").

(** The ownership lookup the three handlers share word for word. *)
Definition query_class_information_params (term _class : string) (user : Personnel)
  : query_params :=
  {| IndexName := None;
     KeyConditionExpression := [("term", AttrS term); ("class", AttrS _class)];
     FilterExpression := [("instructor_id", AttrN (cwid user))];
     ProjectionExpression := None |}.

(** [term, _class = args] *)
Definition unpack2 (args : list string) : Result (string * string) :=
  match args with
  | [term; _class] => Returns (term, _class)
  | _ => Raises (PyException "ValueError" "wrong number of values to unpack")
  end.

(** [GET /classes/{class_term_slug}/students] *)
Definition get_current_enrollment_with (class_term_slug : string) (user : Personnel)
  : M Response :=
  (let args := split "_" class_term_slug in
   if negb (Z.of_nat (length args) =? 2) then raise invalid_class_term else
   tc <- lift (unpack2 args) ;;
   let (term, _class) := tc : string * string in
   class_information <-
     db_query_with (DYNAMO_TABLENAMES "class")
       (query_class_information_params term _class user) ;;
   match class_information with
   | [] => raise class_information_not_found
   | _ :: _ =>
       class_enrollment <-
         db_query_with (DYNAMO_TABLENAMES "enrollment")
           {| IndexName := Some "class_enrollment";
              KeyConditionExpression := [("term", AttrS term); ("class", AttrS _class)];
              FilterExpression := [];
              ProjectionExpression := Some ["student_cwid"] |} ;;
       response <-
         lift (map_result
                 (fun x => match getitem x "student_cwid" with
                           | Returns v => Returns (JObj [("cwid", JStr (py_str v))])
                           | Raises e => Raises e
                           end)
                 class_enrollment) ;;
       ret (JSONResponse HTTP_200_OK (JObj [("data", JArr response)]))
   end)%handler.

(** [GET /classes/{class_term_slug}/waitlist/] *)
Definition get_waitlist_with (class_term_slug : string) (user : Personnel)
  : M Response :=
  (let args := split "_" class_term_slug in
   if negb (Z.of_nat (length args) =? 2) then raise invalid_class_term else
   tc <- lift (unpack2 args) ;;
   let (term, _class) := tc : string * string in
   class_information <-
     db_query_with (DYNAMO_TABLENAMES "class")
       (query_class_information_params term _class user) ;;
   match class_information with
   | [] => raise class_information_not_found
   | _ :: _ =>
       let set_name := _class +:+ "-" +:+ term in
       waitlist_information <- db_redis_zrange set_name 0 15 ;;
       response <-
         lift (map_result
                 (fun x => match decode x with
                           | Returns s => Returns (JObj [("student_cwid", JStr s)])
                           | Raises e => Raises e
                           end)
                 waitlist_information) ;;
       ret (JSONResponse HTTP_200_OK (JObj [("data", JArr response)]))
   end)%handler.

(** [GET /classes/{class_term_slug}/droplist/]; the [print] of the
    query result goes to the server's standard output and is left out. *)
Definition get_droplist_with (class_term_slug : string) (user : Personnel)
  : M Response :=
  (let args := split "_" class_term_slug in
   if negb (Z.of_nat (length args) =? 2) then raise invalid_class_term else
   tc <- lift (unpack2 args) ;;
   let (term, _class) := tc : string * string in
   class_information <-
     db_query_with (DYNAMO_TABLENAMES "class")
       (query_class_information_params term _class user) ;;
   match class_information with
   | [] => raise class_information_not_found
   | _ :: _ =>
       class_dropped_students <-
         db_query_with (DYNAMO_TABLENAMES "droplist")
           {| IndexName := Some "class_dropped_students";
              KeyConditionExpression := [("term", AttrS term); ("class", AttrS _class)];
              FilterExpression := [];
              ProjectionExpression := None |} ;;
       response <-
         lift (map_result
                 (fun x => match getitem x "student_cwid" with
                           | Returns v => Returns (JObj [("student_cwid", JStr (py_str v))])
                           | Raises e => Raises e
                           end)
                 class_dropped_students) ;;
       ret (JSONResponse HTTP_200_OK (JObj [("data", JArr response)]))
   end)%handler.

End ReadHandlers.

(** The engine of the spec, "a black-box key/range query service": it
    answers every request. *)
Definition spec_query (tables : gmap string (list (gmap string attr)))
    (tablename : string) (q : query_params) : query_answer :=
  Items (dynamo_query tables tablename q).

(** The handlers over the engine of the spec. *)
Definition db_query : string -> query_params -> M (list (gmap string attr)) :=
  db_query_with spec_query.

Definition get_current_enrollment
  : (string -> string) -> string -> Personnel -> M Response :=
  get_current_enrollment_with spec_query.

Definition get_waitlist
  : (string -> string) -> (string -> option string) -> string -> Personnel
    -> M Response :=
  get_waitlist_with spec_query.

Definition get_droplist
  : (string -> string) -> string -> Personnel -> M Response :=
  get_droplist_with spec_query.

(** ** The operations of the router *)

Inductive operation :=
| GetCurrentEnrollment (class_term_slug : string) (user : Personnel)
| GetWaitlist (class_term_slug : string) (user : Personnel)
| GetDroplist (class_term_slug : string) (user : Personnel)
| DropClass (class_id student_id instructor_id : Z).

(** ** Vocabulary of the statements below *)

#[global] Instance enrollment_row_eq_dec : EqDecision enrollment_row.
Proof. solve_decision. Defined.

#[global] Instance class_row_eq_dec : EqDecision class_row.
Proof. solve_decision. Defined.

(** Number of occurrences of a character in a string. *)
Fixpoint count_char (c : ascii) (s : string) : nat :=
  match s with
  | EmptyString => 0%nat
  | String a rest => ((if Ascii.eqb a c then 1 else 0) + count_char c rest)%nat
  end.

(** The result is an [HTTPException] with the given status. *)
Definition is_http {A} (code : Z) (r : Result A) : Prop :=
  exists d, r = Raises (HTTPException code d).

(** The class table of the roster store has an item for (term, class)
    whose instructor is the caller. *)
Definition owns_class (items : list (gmap string attr)) (term _class : string)
    (user : Personnel) : Prop :=
  exists it, In it items
    /\ it !! "term" = Some (AttrS term)
    /\ it !! "class" = Some (AttrS _class)
    /\ it !! "instructor_id" = Some (AttrN (cwid user)).

Definition enrollment_of (c s : Z) : enrollment_row :=
  {| e_class_id := c; e_student_id := s |}.

(** An active enrollment row (c, s) exists. *)
Definition enrolled (t : Tables) (c s : Z) : Prop :=
  In (enrollment_of c s) (enrollment t).

(** The class row with id [c] has instructor [i]. *)
Definition teaches (t : Tables) (c i : Z) : Prop :=
  In {| c_id := c; c_instructor_id := i |} (class t).

(** The droplist row of an administrative drop at time [now]. *)
Definition admin_drop_row (c s : Z) (now : string) : droplist_row :=
  {| d_class_id := c; d_student_id := s; drop_date := now; administrative := 1 |}.

(** The tables with every enrollment row (c, s) taken out. *)
Definition without_enrollment (c s : Z) (t : Tables) : Tables :=
  {| class := class t;
     enrollment :=
       List.filter (fun e => negb (bool_decide (e = enrollment_of c s)))
         (enrollment t);
     droplist := droplist t |}.

(** The tables after the drop of (c, s) at time [now]. *)
Definition dropped (c s : Z) (now : string) (t : Tables) : Tables :=
  {| class := class t;
     enrollment := enrollment (without_enrollment c s t);
     droplist := droplist t ++ [admin_drop_row c s now] |}.

(** A connection with nothing pending: both views are [t]. *)
Definition settled_on (t : Tables) : Connection :=
  {| committed := t; working := t; locked := false |}.

(** The events a computation adds to the trace. *)
Definition emitted {A} (m : M A) (st : State) : list event :=
  drop (length (trace st)) (trace (snd (m st))).

Section Router.

Variable DYNAMO_TABLENAMES : string -> string.
Variable utf8_decode : string -> option string.
Variable droplist_violation : Tables -> droplist_row -> option string.
Variable is_auto_enroll_enabled : World -> Result bool * World.
Variable enroll_students_from_waitlist : list Z -> World -> Result unit * World.

(** The handler the router dispatches an operation to. *)
Definition run (op : operation) : M Response :=
  match op with
  | GetCurrentEnrollment slug user =>
      get_current_enrollment DYNAMO_TABLENAMES slug user
  | GetWaitlist slug user =>
      get_waitlist DYNAMO_TABLENAMES utf8_decode slug user
  | GetDroplist slug user =>
      get_droplist DYNAMO_TABLENAMES slug user
  | DropClass class_id student_id instructor_id =>
      drop_class droplist_violation is_auto_enroll_enabled
        enroll_students_from_waitlist class_id student_id instructor_id
  end.

End Router.

(** A handler behind the ownership check: an answer comes only for a
    class the caller owns, and the 404 error for any other class. *)
Definition answers_only_owner (h : M Response) (items : list (gmap string attr))
    (term _class : string) (user : Personnel) (st : State) : Prop :=
  (forall resp, fst (h st) = Returns resp -> owns_class items term _class user)
  /\ (~ owns_class items term _class user ->
      is_http HTTP_404_NOT_FOUND (fst (h st))).

(** A handler that takes the key as well formed and hands it to the
    engine: it raises no 400 error; the ownership lookup, with the parts
    as they are, is its first datastore call; an empty answer ends the
    request with the 404 error, and a refusal with the engine's
    [ClientError] - in both cases with no further call and the stores
    as they were. *)
Definition reaches_lookup (h : M Response) (answer : query_answer)
    (lookup : event) (st : State) : Prop :=
  ~ is_http BAD_REQUEST (fst (h st))
  /\ (exists rest, emitted h st = lookup :: rest)
  /\ (answer = Items [] ->
      h st = (Raises class_information_not_found,
              {| world := world st; trace := trace st ++ [lookup] |}))
  /\ (forall error,
        answer = Refused error ->
        h st = (Raises (PyException "ClientError" error),
                {| world := world st; trace := trace st ++ [lookup] |})).

(** The rows the conditional delete hits, and the tables it leaves. *)
Definition deleted_rows (c s i : Z) (t : Tables) : list enrollment_row :=
  List.filter (delete_where t c s c i) (enrollment t).

Definition after_delete (c s i : Z) (t : Tables) : Tables :=
  {| class := class t;
     enrollment := List.filter (fun e => negb (delete_where t c s c i e)) (enrollment t);
     droplist := droplist t |}.

(** What the [except] clause makes of an exception. *)
Definition translated (e : exn) : exn :=
  match e with
  | Sqlite3Error IntegrityError msg =>
      HTTPException HTTP_409_CONFLICT (DetailTypeMsg "IntegrityError" msg)
  | _ => e
  end.

(** The body of the 200 response of the drop. *)
Definition item_deleted : Response :=
  JSONResponse HTTP_200_OK (JObj [("detail", JStr "Item deleted successfully")]).

Definition record_not_found : exn :=
  HTTPException HTTP_404_NOT_FOUND (DetailStr "Record Not Found").

(** The tables the droplist insert leaves. *)
Definition after_insert (c s : Z) (now : string) (t : Tables) : Tables :=
  {| class := class t; enrollment := enrollment t;
     droplist := droplist t ++ [admin_drop_row c s now] |}.

(** The exceptions raised by the steps inside the [try] block of the
    drop of (c, s) by [i] from state [st], each with the condition
    under which the step raises it. *)
Section RaisedInTry.

Variable droplist_violation : Tables -> droplist_row -> option string.
Variable is_auto_enroll_enabled : World -> Result bool * World.
Variable enroll_students_from_waitlist : list Z -> World -> Result unit * World.

Inductive raised_in_try (c s i : Z) (st : State) : exn -> Prop :=
| delete_locked :
    locked (sql (world st)) = true ->
    raised_in_try c s i st (Sqlite3Error OperationalError "database is locked")
| no_row_deleted :
    locked (sql (world st)) = false ->
    deleted_rows c s i (working (sql (world st))) = [] ->
    raised_in_try c s i st record_not_found
| insert_violation (msg : string) :
    locked (sql (world st)) = false ->
    deleted_rows c s i (working (sql (world st))) <> [] ->
    droplist_violation (after_delete c s i (working (sql (world st))))
      (admin_drop_row c s (clock (world st))) = Some msg ->
    raised_in_try c s i st (Sqlite3Error IntegrityError msg)
| flag_read_raises (e : exn) (w2 : World) :
    locked (sql (world st)) = false ->
    deleted_rows c s i (working (sql (world st))) <> [] ->
    droplist_violation (after_delete c s i (working (sql (world st))))
      (admin_drop_row c s (clock (world st))) = None ->
    is_auto_enroll_enabled
      (with_sql (world st)
         (settled_on (after_insert c s (clock (world st))
                        (after_delete c s i (working (sql (world st)))))))
    = (Raises e, w2) ->
    raised_in_try c s i st e
| trigger_raises (e : exn) (w2 w3 : World) :
    locked (sql (world st)) = false ->
    deleted_rows c s i (working (sql (world st))) <> [] ->
    droplist_violation (after_delete c s i (working (sql (world st))))
      (admin_drop_row c s (clock (world st))) = None ->
    is_auto_enroll_enabled
      (with_sql (world st)
         (settled_on (after_insert c s (clock (world st))
                        (after_delete c s i (working (sql (world st)))))))
    = (Returns true, w2) ->
    enroll_students_from_waitlist [c] w2 = (Raises e, w3) ->
    raised_in_try c s i st e.

End RaisedInTry.

(** A call that leaves the world as it found it. *)
Definition pure_read {A} (h : World -> Result A * World) : Prop :=
  forall w, snd (h w) = w.

(** A call that leaves the droplist table as it found it. *)
Definition keeps_droplist {A} (h : World -> Result A * World) : Prop :=
  forall w, droplist (committed (sql (snd (h w)))) = droplist (committed (sql w)).



(** The tables of the commits in a trace. *)
Fixpoint commits (tr : list event) : list Tables :=
  match tr with
  | [] => []
  | EvCommit t :: tr' => t :: commits tr'
  | _ :: tr' => commits tr'
  end.

(** The calls of the auto-enrollment trigger in a trace, with their
    class lists. *)
Fixpoint trigger_calls (tr : list event) : list (list Z) :=
  match tr with
  | [] => []
  | EvEnrollFromWaitlist _ cs :: tr' => cs :: trigger_calls tr'
  | _ :: tr' => trigger_calls tr'
  end.

(** ** Sample data *)

Definition sample_tables : Tables :=
  {| class := [ {| c_id := 12; c_instructor_id := 3 |} ];
     enrollment := [ enrollment_of 12 7; enrollment_of 12 8 ];
     droplist := [] |}.

Definition sample_world : World :=
  {| dynamo :=
       {[ "class" := [ {[ "term" := AttrS "fall"; "class" := AttrS "cs101";
                          "instructor_id" := AttrN 3 ]} ];
          "enrollment" := [ {[ "term" := AttrS "fall"; "class" := AttrS "cs101";
                               "student_cwid" := AttrN 7 ]};
                            {[ "term" := AttrS "fall"; "class" := AttrS "cs101";
                               "student_cwid" := AttrN 8 ]};
                            {[ "term" := AttrS "fall"; "class" := AttrS "cs201";
                               "student_cwid" := AttrN 8 ]} ];
          "droplist" := [ {[ "term" := AttrS "fall"; "class" := AttrS "cs101";
                             "student_cwid" := AttrN 5 ]} ] ]};
     redis := {[ "cs101-fall" := ["9"; "10"] ]};
     sql := settled_on sample_tables;
     clock := "2023-11-01 10:00:00" |}.

Definition sample_state : State := {| world := sample_world; trace := [] |}.

(** The same, with the write lock held by another connection. *)
Definition sample_state_locked : State :=
  {| world := with_sql sample_world
                {| committed := sample_tables; working := sample_tables;
                   locked := true |};
     trace := [] |}.

(** The same, with (12, 7) already on the droplist. *)
Definition sample_state_redropped : State :=
  {| world := with_sql sample_world
                (settled_on
                   {| class := class sample_tables;
                      enrollment := enrollment sample_tables;
                      droplist := [admin_drop_row 12 7 "2023-09-01 09:00:00"] |});
     trace := [] |}.

(** A schema without constraints on the droplist, and one where
    (class_id, student_id) is unique. *)
Definition no_constraint : Tables -> droplist_row -> option string :=
  fun _ _ => None.

Definition unique_pair : Tables -> droplist_row -> option string :=
  fun t r =>
    if existsb (fun r' => (d_class_id r' =? d_class_id r)
                          && (d_student_id r' =? d_student_id r)) (droplist t)
    then Some "UNIQUE constraint failed: droplist.class_id, droplist.student_id"
    else None.

(** Helpers for the samples: the flag on or off, read without effect;
    a trigger that enrols student 9 in each class; one that fails on a
    constraint of the enrollment table. *)
Definition flag_on : World -> Result bool * World := fun w => (Returns true, w).
Definition flag_off : World -> Result bool * World := fun w => (Returns false, w).

Definition with_nine (cs : list Z) (t : Tables) : Tables :=
  {| class := class t;
     enrollment := enrollment t ++ map (fun c => enrollment_of c 9) cs;
     droplist := droplist t |}.

Definition enroll_nine (cs : list Z) (w : World) : Result unit * World :=
  (Returns tt,
   with_sql w {| committed := with_nine cs (committed (sql w));
                 working := with_nine cs (working (sql w));
                 locked := locked (sql w) |}).

Definition enroll_fails (cs : list Z) (w : World) : Result unit * World :=
  (Raises (Sqlite3Error IntegrityError "UNIQUE constraint failed: enrollment.class_id, enrollment.student_id"), w).

(** An engine that, like DynamoDB, refuses a key condition on an empty
    string and answers every other request as the engine of the spec. *)
Definition validating_query (tables : gmap string (list (gmap string attr)))
    (tablename : string) (q : query_params) : query_answer :=
  if existsb (fun kv => bool_decide (kv.2 = AttrS "")) (KeyConditionExpression q)
  then Refused "ValidationException"
  else spec_query tables tablename q.

(** Table names and decoding for the samples. *)
Definition sample_tablenames : string -> string := fun key => key.
Definition sample_decode : string -> option string := Some.

(** ** Vocabulary of the further properties *)

(** The item belongs to (term, class). *)
Definition key_matches (term _class : string) (it : gmap string attr) : bool :=
  bool_decide (it !! "term" = Some (AttrS term)
               /\ it !! "class" = Some (AttrS _class)).

(** The items of (term, class) in a table, in table order. *)
Definition class_items (term _class : string) (items : list (gmap string attr))
  : list (gmap string attr) :=
  List.filter (key_matches term _class) items.

(** The members of a sorted set the waitlist handler looks at. *)
Definition top_sixteen (sets : gmap string (list string)) (name : string)
  : list string :=
  take 16 (sets !!! name).

(** [sep.join(parts)] for a one-character separator. *)
Fixpoint join (sep : ascii) (parts : list string) : string :=
  match parts with
  | [] => EmptyString
  | [p] => p
  | p :: ps => p +:+ String sep (join sep ps)
  end.

(** The status codes a read handler uses: an [HTTPException] is a 400
    or a 404, a response is a 200. *)
Definition read_statuses (h : M Response) (st : State) : Prop :=
  (forall code, is_http code (fst (h st)) ->
                code = BAD_REQUEST \/ code = HTTP_404_NOT_FOUND)
  /\ (forall resp, fst (h st) = Returns resp -> status_code resp = HTTP_200_OK).

(** A call that leaves the roster store and the waitlist store as it
    found them. *)
Definition keeps_stores {A} (h : World -> Result A * World) : Prop :=
  forall w, dynamo (snd (h w)) = dynamo w /\ redis (snd (h w)) = redis w.

(** The operation is one of the three reads. *)
Definition is_read (op : operation) : bool :=
  match op with
  | DropClass _ _ _ => false
  | _ => true
  end.

(** Sample data for the further properties: a droplist item without
    [student_cwid], and a waitlist with two members that are not ASCII
    under a decoder that takes ASCII only. *)
Definition sample_state_no_cwid : State :=
  {| world :=
       {| dynamo :=
            {[ "class" := [ {[ "term" := AttrS "fall"; "class" := AttrS "cs101";
                               "instructor_id" := AttrN 3 ]} ];
               "droplist" := [ {[ "term" := AttrS "fall"; "class" := AttrS "cs101";
                                  "student_cwid" := AttrN 5 ]};
                               {[ "term" := AttrS "fall"; "class" := AttrS "cs101" ]} ] ]};
          redis := ∅;
          sql := settled_on sample_tables;
          clock := "2023-11-01 10:00:00" |};
     trace := [] |}.

Definition ascii_only (x : string) : option string :=
  if forallb (fun a => (nat_of_ascii a <? 128)%nat) (list_ascii_of_string x)
  then Some x else None.

Definition sample_state_latin1 : State :=
  {| world :=
       {| dynamo := dynamo sample_world;
          redis := {[ "cs101-fall" := ["9"; String (ascii_of_nat 233) ""; "10";
                                       String (ascii_of_nat 241) ""] ]};
          sql := settled_on sample_tables;
          clock := "2023-11-01 10:00:00" |};
     trace := [] |}.

(** * Properties of the read handlers *)

Lemma length_split (sep : ascii) (s : string) :
  length (split sep s) = S (count_char sep s).
Proof.
  induction s as [|a rest IH]; simpl; [reflexivity|].
  destruct (Ascii.eqb a sep); simpl.
  - now rewrite IH.
  - destruct (split sep rest) as [|p ps]; [discriminate IH|exact IH].
Qed.

Lemma split_two_parts (sep : ascii) (s : string) :
  count_char sep s = 1%nat <-> exists term _class, split sep s = [term; _class].
Proof.
  pose proof (length_split sep s) as Hlen. split.
  - intros Hc. rewrite Hc in Hlen.
    destruct (split sep s) as [|t [|c [|x l]]]; try discriminate Hlen.
    now exists t, c.
  - intros (t & c & Heq). rewrite Heq in Hlen. simpl in Hlen. lia.
Qed.

Lemma malformed_length (s : string) :
  count_char "_" s <> 1%nat ->
  negb (Z.of_nat (length (split "_" s)) =? 2) = true.
Proof.
  intros Hc. rewrite length_split. apply negb_true_iff, Z.eqb_neq. lia.
Qed.

Lemma filter_nil_iff {A} (p : A -> bool) (l : list A) :
  List.filter p l = [] <-> forall x, In x l -> p x = false.
Proof.
  induction l as [|a l IH]; simpl.
  - split; [intros _ x []|reflexivity].
  - destruct (p a) eqn:Hp; split.
    + discriminate.
    + intros H. specialize (H a (or_introl eq_refl)). congruence.
    + intros H x [<-|Hx]; [exact Hp|now apply IH].
    + intros H. apply IH. intros x Hx. apply H. now right.
Qed.

Lemma class_lookup_hit (it : gmap string attr) (term _class : string) (user : Personnel) :
  satisfies (KeyConditionExpression (query_class_information_params term _class user)) it
  && satisfies (FilterExpression (query_class_information_params term _class user)) it = true
  <-> it !! "term" = Some (AttrS term)
      /\ it !! "class" = Some (AttrS _class)
      /\ it !! "instructor_id" = Some (AttrN (cwid user)).
Proof.
  unfold satisfies; simpl.
  rewrite !andb_true_iff, !bool_decide_eq_true. tauto.
Qed.

Lemma class_lookup_empty tables tablename term _class user :
  dynamo_query tables tablename (query_class_information_params term _class user) = []
  <-> ~ owns_class (tables !!! tablename) term _class user.
Proof.
  unfold dynamo_query, owns_class.
  split.
  - intros Hq (it & Hin & Hit).
    apply map_eq_nil in Hq.
    rewrite filter_nil_iff in Hq. specialize (Hq it Hin).
    apply class_lookup_hit in Hit. congruence.
  - intros Hno.
    replace (List.filter _ _) with (@nil (gmap string attr)); [reflexivity|].
    symmetry. apply filter_nil_iff. intros it Hin.
    apply not_true_is_false. intros Hit. apply Hno. exists it.
    split; [exact Hin|]. now apply class_lookup_hit.
Qed.

Arguments dynamo_query : simpl never.
Arguments zrange : simpl never.
Arguments query_class_information_params : simpl never.

Lemma map_result_raises {A B} (f : A -> Result B) (xs : list A) (e : exn) :
  map_result f xs = Raises e -> exists x, In x xs /\ f x = Raises e.
Proof.
  induction xs as [|x xs IH]; simpl; [discriminate|].
  destruct (f x) as [y|e'] eqn:Hfx.
  - destruct (map_result f xs) as [ys|e'']; [discriminate|].
    intros Heq. destruct (IH Heq) as (x' & Hin & Hx'). eauto.
  - intros Heq. exists x. split; [now left|congruence].
Qed.

Lemma is_http_PyException {A} (code : Z) (name msg : string) :
  ~ @is_http A code (Raises (PyException name msg)).
Proof. intros [d Hd]. discriminate Hd. Qed.

Lemma is_http_Returns {A} (code : Z) (a : A) : ~ is_http code (Returns a).
Proof. intros [d Hd]. discriminate Hd. Qed.

(** Unfolds a handler down to the state function it denotes. *)
Ltac run_handler :=
  unfold get_current_enrollment, get_waitlist, get_droplist,
    get_current_enrollment_with, get_waitlist_with, get_droplist_with,
    bind, db_query, db_query_with, spec_query, db_redis_zrange,
    record, get_world, ret, raise, lift.

(** The failure of one of the comprehensions that shape the rows is a
    [KeyError] or a [UnicodeDecodeError], never an [HTTPException]. *)
Ltac shape_failure H :=
  apply map_result_raises in H; destruct H as (? & _ & H);
  unfold getitem, decode in H;
  repeat match type of H with
         | context [match ?o with Some _ => _ | None => _ end] => destruct o
         end;
  try discriminate H; injection H as H; subst; apply is_http_PyException.

(** Ownership is decided by the lookup itself, hence decidable. *)
Lemma classic_owns (items : list (gmap string attr)) (term _class : string)
    (user : Personnel) :
  owns_class items term _class user \/ ~ owns_class items term _class user.
Proof.
  induction items as [|it items IH].
  - right. intros (x & [] & _).
  - destruct IH as [(x & Hin & Hx)|Hno].
    + left. exists x. split; [now right|exact Hx].
    + destruct (decide (it !! "term" = Some (AttrS term)
                        /\ it !! "class" = Some (AttrS _class)
                        /\ it !! "instructor_id" = Some (AttrN (cwid user))))
        as [Hit|Hnit].
      * left. exists it. split; [now left|exact Hit].
      * right. intros (x & [<-|Hin] & Hx); [now apply Hnit|].
        apply Hno. now exists x.
Qed.

Section ReadProperties.

Variable DYNAMO_TABLENAMES : string -> string.
Variable utf8_decode : string -> option string.

#[local] Abbreviation roster := (get_current_enrollment DYNAMO_TABLENAMES).
#[local] Abbreviation waitlist := (get_waitlist DYNAMO_TABLENAMES utf8_decode).
#[local] Abbreviation dropped_students := (get_droplist DYNAMO_TABLENAMES).

(** What the three handlers do once the key has split in two: the
    ownership lookup is the first call, an empty answer ends the
    request with the 404 error, and after a non-empty answer neither
    400 nor 404 is raised any more. *)
Lemma ownership_gate (h : M Response) (slug term _class : string)
    (user : Personnel) (st : State) :
  h = roster slug user \/ h = waitlist slug user \/ h = dropped_students slug user ->
  split "_" slug = [term; _class] ->
  let q := query_class_information_params term _class user in
  let lookup := EvDynamoQuery (DYNAMO_TABLENAMES "class") q in
  (exists rest, trace (snd (h st)) = trace st ++ lookup :: rest)
  /\ (dynamo_query (dynamo (world st)) (DYNAMO_TABLENAMES "class") q = [] ->
      h st = (Raises class_information_not_found,
              {| world := world st; trace := trace st ++ [lookup] |}))
  /\ (dynamo_query (dynamo (world st)) (DYNAMO_TABLENAMES "class") q <> [] ->
      forall code, ~ is_http code (fst (h st))).
Proof.
  intros Hh Hs q lookup. subst q lookup.
  destruct Hh as [-> | [-> | ->]]; run_handler; rewrite Hs; simpl;
    destruct (dynamo_query _ _ _) as [|it its]; simpl.
  all: repeat split; try congruence; try (eexists; reflexivity).
  all: match goal with
       | |- context [map_result ?f ?l] => destruct (map_result f l) eqn:Hm
       end; simpl.
  all: try (rewrite <- app_assoc; eexists; reflexivity).
  all: try (intros _ code; apply is_http_Returns).
  all: intros _ code; shape_failure Hm.
Qed.


(** C7. A path parameter that does not contain exactly one underscore
    (equivalently, one that does not split into two parts) makes each of
    the three read handlers raise the 400 error, and the handler has
    then touched nothing: the state, trace of datastore calls included,
    is the one it started from. *)
Theorem malformed_key_bad_request (slug : string) (user : Personnel) (st : State) :
  count_char "_" slug <> 1%nat ->
  length (split "_" slug) <> 2%nat
  /\ (is_http BAD_REQUEST (fst (roster slug user st))
      /\ snd (roster slug user st) = st)
  /\ (is_http BAD_REQUEST (fst (waitlist slug user st))
      /\ snd (waitlist slug user st) = st)
  /\ (is_http BAD_REQUEST (fst (dropped_students slug user st))
      /\ snd (dropped_students slug user st) = st).
Proof.
  intros Hc. pose proof (malformed_length slug Hc) as Hlen.
  split; [rewrite length_split; lia|].
  repeat split; run_handler; rewrite Hlen; simpl; try reflexivity;
    eexists; reflexivity.
Qed.

(** One handler behind the ownership check: it answers only for an
    owned class, and raises the 404 error for any other. *)
Lemma gate_checks_ownership (h : M Response) (slug term _class : string)
    (user : Personnel) (st : State) :
  h = roster slug user \/ h = waitlist slug user \/ h = dropped_students slug user ->
  split "_" slug = [term; _class] ->
  let items := dynamo (world st) !!! DYNAMO_TABLENAMES "class" in
  (forall resp, fst (h st) = Returns resp -> owns_class items term _class user)
  /\ (~ owns_class items term _class user ->
      is_http HTTP_404_NOT_FOUND (fst (h st))
      /\ emitted h st
         = [EvDynamoQuery (DYNAMO_TABLENAMES "class")
              (query_class_information_params term _class user)]).
Proof.
  intros Hh Hs items.
  destruct (ownership_gate h slug term _class user st Hh Hs) as (_ & Hnone & _).
  pose proof (class_lookup_empty (dynamo (world st)) (DYNAMO_TABLENAMES "class")
                term _class user) as Hiff.
  fold items in Hiff. split.
  - intros resp Hret.
    destruct (dynamo_query (dynamo (world st)) (DYNAMO_TABLENAMES "class")
                (query_class_information_params term _class user)) eqn:Hq.
    + rewrite (Hnone eq_refl) in Hret. discriminate Hret.
    + destruct (classic_owns items term _class user) as [Ho|Hno]; [exact Ho|].
      apply Hiff in Hno. congruence.
  - intros Hno. apply Hiff in Hno. unfold emitted. rewrite (Hnone Hno). simpl.
    split; [eexists; reflexivity|apply drop_app_length].
Qed.


(** C8. For a well-formed key, each read handler returns a response
    only when the class table holds an item for (term, class) whose
    instructor is the caller, and raises the 404 error whenever no such
    item exists. *)
Theorem read_handlers_check_ownership (slug term _class : string)
    (user : Personnel) (st : State) :
  split "_" slug = [term; _class] ->
  let items := dynamo (world st) !!! DYNAMO_TABLENAMES "class" in
  answers_only_owner (roster slug user) items term _class user st
  /\ answers_only_owner (waitlist slug user) items term _class user st
  /\ answers_only_owner (dropped_students slug user) items term _class user st.
Proof.
  intros Hs items. unfold answers_only_owner.
  repeat split;
    try (intros resp; eapply gate_checks_ownership; eauto);
    intros Hno; eapply gate_checks_ownership; eauto.
Qed.

End ReadProperties.

(** The keys the claim names, split. *)
Example empty_component_keys :
  split "_" "_" = [""; ""]
  /\ split "_" "fall_" = ["fall"; ""]
  /\ split "_" "_cs101" = [""; "cs101"].
Proof. repeat split. Qed.

(** Unfolds a handler over a given engine. *)
Ltac run_handler_with :=
  cbv [get_current_enrollment_with get_waitlist_with get_droplist_with
       bind db_query_with db_redis_zrange record get_world ret raise lift].

Section EngineProperties.

Variable query :
  gmap string (list (gmap string attr)) -> string -> query_params -> query_answer.
Variable DYNAMO_TABLENAMES : string -> string.
Variable utf8_decode : string -> option string.

(** One handler, whatever the engine, once the key has split in two. *)
Lemma gate_reaches_lookup (h : M Response) (slug term _class : string)
    (user : Personnel) (st : State) :
  h = get_current_enrollment_with query DYNAMO_TABLENAMES slug user
  \/ h = get_waitlist_with query DYNAMO_TABLENAMES utf8_decode slug user
  \/ h = get_droplist_with query DYNAMO_TABLENAMES slug user ->
  split "_" slug = [term; _class] ->
  reaches_lookup h
    (query (dynamo (world st)) (DYNAMO_TABLENAMES "class")
       (query_class_information_params term _class user))
    (EvDynamoQuery (DYNAMO_TABLENAMES "class")
       (query_class_information_params term _class user))
    st.
Proof.
  intros Hh Hs. unfold reaches_lookup, emitted.
  destruct Hh as [-> | [-> | ->]]; run_handler_with; rewrite Hs; simpl;
    destruct (query (dynamo (world st)) (DYNAMO_TABLENAMES "class")
                (query_class_information_params term _class user))
      as [[|it its]|err]; simpl.
  all: repeat split; try discriminate; try congruence.
  all: try (intros [d Hd]; discriminate Hd).
  all: try (rewrite drop_app_length; eexists; reflexivity).
  all: try (intros ? Heq; injection Heq as <-; reflexivity).
  all: repeat match goal with
         | |- context [match query ?t ?n ?q with _ => _ end] =>
             destruct (query t n q); simpl
         | |- context [map_result ?f ?l] =>
             let Hm := fresh "Hm" in destruct (map_result f l) eqn:Hm; simpl
         end.
  all: try (rewrite <- ?app_assoc, drop_app_length; eexists; reflexivity).
  all: try apply is_http_Returns; try apply is_http_PyException.
  all: match goal with
       | Hm : map_result _ _ = Raises _ |- _ => shape_failure Hm
       end.
Qed.

(** C10, as the code has it.  A key with exactly one underscore and an
    empty term and/or class part passes the format check of each read
    handler: no 400 error is raised, and the handler goes on to the
    ownership lookup with the empty parts as they are.  What follows is
    the engine's answer: the 404 error when the lookup finds no item,
    and the engine's own error, as raised, when it refuses the
    request. *)
Theorem empty_components_reach_lookup (slug term _class : string)
    (user : Personnel) (st : State) :
  count_char "_" slug = 1%nat ->
  split "_" slug = [term; _class] ->
  term = "" \/ _class = "" ->
  let q := query_class_information_params term _class user in
  let lookup := EvDynamoQuery (DYNAMO_TABLENAMES "class") q in
  let answer := query (dynamo (world st)) (DYNAMO_TABLENAMES "class") q in
  reaches_lookup (get_current_enrollment_with query DYNAMO_TABLENAMES slug user)
    answer lookup st
  /\ reaches_lookup (get_waitlist_with query DYNAMO_TABLENAMES utf8_decode slug user)
       answer lookup st
  /\ reaches_lookup (get_droplist_with query DYNAMO_TABLENAMES slug user)
       answer lookup st.
Proof.
  intros _ Hs _ q lookup answer. subst q lookup answer.
  split; [|split]; eapply gate_reaches_lookup; eauto.
Qed.

End EngineProperties.

(** * Properties of the administrative drop *)

Arguments delete_where : simpl never.

Lemma delete_where_owned (t : Tables) (c s i : Z) (e : enrollment_row) :
  teaches t c i ->
  delete_where t c s c i e = bool_decide (e = enrollment_of c s).
Proof.
  intros Ht. unfold delete_where.
  destruct e as [ec es]; simpl.
  destruct (Z.eqb_spec ec c) as [->|Hc]; simpl.
  - assert (Hex : existsb (fun k => c =? k)
                    (map c_id (List.filter
                       (fun r => (c_id r =? c) && (c_instructor_id r =? i)) (class t)))
                  = true).
    { apply existsb_exists. exists c. split; [|apply Z.eqb_refl].
      apply in_map_iff. exists {| c_id := c; c_instructor_id := i |}.
      split; [reflexivity|]. apply filter_In. split; [exact Ht|].
      simpl. now rewrite !Z.eqb_refl. }
    rewrite Hex, andb_true_r.
    destruct (Z.eqb_spec es s) as [->|Hs]; symmetry.
    + now apply bool_decide_eq_true.
    + apply bool_decide_eq_false. unfold enrollment_of. congruence.
  - symmetry. apply bool_decide_eq_false. unfold enrollment_of. congruence.
Qed.

Lemma delete_where_unowned (t : Tables) (c s i : Z) (e : enrollment_row) :
  ~ teaches t c i -> delete_where t c s c i e = false.
Proof.
  intros Ht. unfold delete_where.
  replace (List.filter _ (class t)) with (@nil class_row).
  - simpl. apply andb_false_r.
  - symmetry. apply filter_nil_iff. intros [k j] Hin. simpl.
    destruct (Z.eqb_spec k c) as [->|]; [|reflexivity].
    destruct (Z.eqb_spec j i) as [->|]; [|reflexivity].
    now destruct Ht.
Qed.

Lemma delete_where_target (t : Tables) (c s i : Z) (e : enrollment_row) :
  delete_where t c s c i e = true -> e = enrollment_of c s.
Proof.
  unfold delete_where. rewrite !andb_true_iff.
  intros [[Hc Hs] _]. apply Z.eqb_eq in Hc, Hs.
  destruct e; unfold enrollment_of; simpl in *; congruence.
Qed.

Lemma filter_all {A} (p : A -> bool) (l : list A) :
  (forall x, In x l -> p x = true) -> List.filter p l = l.
Proof.
  induction l as [|a l IH]; simpl; intros H; [reflexivity|].
  rewrite (H a (or_introl eq_refl)). f_equal. apply IH. auto.
Qed.

Lemma tables_eta (t : Tables) :
  {| class := class t; enrollment := enrollment t; droplist := droplist t |} = t.
Proof. now destruct t. Qed.

(** No row hit: the delete leaves the tables as they are. *)
Lemma after_delete_none (c s i : Z) (t : Tables) :
  deleted_rows c s i t = [] -> after_delete c s i t = t.
Proof.
  unfold deleted_rows, after_delete. intros Hnone.
  rewrite filter_nil_iff in Hnone.
  rewrite filter_all; [apply tables_eta|].
  intros e He. now rewrite (Hnone e He).
Qed.

Lemma deleted_rows_none (c s i : Z) (t : Tables) :
  ~ enrolled t c s \/ ~ teaches t c i -> deleted_rows c s i t = [].
Proof.
  intros Hcause. apply filter_nil_iff. intros e He.
  destruct Hcause as [Hne|Hnt]; [|now apply delete_where_unowned].
  apply not_true_is_false. intros Hhit.
  apply delete_where_target in Hhit. subst e. now apply Hne.
Qed.

Lemma deleted_rows_some (c s i : Z) (t : Tables) :
  enrolled t c s -> teaches t c i -> deleted_rows c s i t <> [].
Proof.
  intros He Ht Hnone. unfold deleted_rows in Hnone.
  rewrite filter_nil_iff in Hnone. specialize (Hnone _ He).
  rewrite (delete_where_owned t c s i _ Ht) in Hnone.
  apply bool_decide_eq_false in Hnone. now apply Hnone.
Qed.

(** A row was hit only if the pair is enrolled and the class is the
    caller's. *)
Lemma deleted_rows_cause (c s i : Z) (t : Tables) :
  deleted_rows c s i t <> [] -> enrolled t c s /\ teaches t c i.
Proof.
  intros Hsome. split.
  - destruct (deleted_rows c s i t) as [|e l] eqn:Hd; [congruence|].
    assert (Hin : In e (deleted_rows c s i t)) by (rewrite Hd; now left).
    apply filter_In in Hin as [Hin Hhit].
    apply delete_where_target in Hhit. now subst e.
  - destruct (In_dec class_row_eq_dec {| c_id := c; c_instructor_id := i |} (class t))
      as [Hin|Hnin]; [exact Hin|].
    destruct Hsome. now apply deleted_rows_none; right.
Qed.

Lemma after_delete_owned (c s i : Z) (t : Tables) :
  teaches t c i -> after_delete c s i t = without_enrollment c s t.
Proof.
  intros Ht. unfold after_delete, without_enrollment. f_equal.
  apply filter_ext. intros e. now rewrite (delete_where_owned t c s i e Ht).
Qed.

Lemma without_enrollment_gone (c s : Z) (t : Tables) :
  ~ enrolled (without_enrollment c s t) c s.
Proof.
  unfold enrolled, without_enrollment; simpl. intros Hin.
  apply filter_In in Hin as [_ Hb].
  apply negb_true_iff, bool_decide_eq_false in Hb. now apply Hb.
Qed.

Lemma rowcount_zero {A} (l : list A) : l = [] -> (Z.of_nat (length l) =? 0) = true.
Proof. now intros ->. Qed.

Lemma rowcount_nonzero {A} (l : list A) : l <> [] -> (Z.of_nat (length l) =? 0) = false.
Proof. destruct l; [congruence|intros _; apply Z.eqb_neq; simpl; lia]. Qed.

Lemma except_translated {A} (e : exn) (st : State) :
  @except_IntegrityError A e st = (Raises (translated e), st).
Proof. destruct e as [| [] |]; reflexivity. Qed.

Ltac run_drop :=
  cbv [drop_class try_except bind execute commit call record
         get_world put_sql ret raise run_statement]; simpl.

Section DropProperties.

Variable droplist_violation : Tables -> droplist_row -> option string.
Variable is_auto_enroll_enabled : World -> Result bool * World.
Variable enroll_students_from_waitlist : list Z -> World -> Result unit * World.

#[local] Abbreviation drop :=
  (drop_class droplist_violation is_auto_enroll_enabled enroll_students_from_waitlist).

(** The connection is locked: the delete raises, nothing else happens. *)
Lemma drop_locked (c s i : Z) (st : State) :
  locked (sql (world st)) = true ->
  drop c s i st
  = (Raises (Sqlite3Error OperationalError "database is locked"),
     {| world := world st;
        trace := trace st ++ [EvExecute (DeleteEnrollment c s c i)] |}).
Proof. intros Hl. run_drop. rewrite Hl. reflexivity. Qed.

(** The delete hits no row: 404, and the world is as before. *)
Lemma drop_miss (c s i : Z) (st : State) :
  locked (sql (world st)) = false ->
  deleted_rows c s i (working (sql (world st))) = [] ->
  drop c s i st
  = (Raises record_not_found,
     {| world := world st;
        trace := trace st ++ [EvExecute (DeleteEnrollment c s c i)] |}).
Proof.
  intros Hl Hnone.
  pose proof (after_delete_none c s i _ Hnone) as Hsame.
  destruct st as [[d r [cm wk lk] clk] tr]; simpl in *; subst lk.
  unfold deleted_rows in Hnone. unfold after_delete in Hsame.
  run_drop. rewrite (rowcount_zero _ Hnone), Hsame. reflexivity.
Qed.

(** The delete hits, the insert breaks a constraint: 409, the delete
    stays pending in the connection's view, nothing is committed. *)
Lemma drop_conflict (c s i : Z) (st : State) (msg : string) :
  let t0 := working (sql (world st)) in
  locked (sql (world st)) = false ->
  deleted_rows c s i t0 <> [] ->
  droplist_violation (after_delete c s i t0) (admin_drop_row c s (clock (world st)))
  = Some msg ->
  drop c s i st
  = (Raises (HTTPException HTTP_409_CONFLICT (DetailTypeMsg "IntegrityError" msg)),
     {| world := with_sql (world st)
                   {| committed := committed (sql (world st));
                      working := after_delete c s i t0;
                      locked := false |};
        trace := trace st ++ [EvExecute (DeleteEnrollment c s c i);
                              EvExecute (InsertDroplist c s)] |}).
Proof.
  intros t0 Hl Hsome Hv. subst t0. run_drop. rewrite Hl. simpl.
  unfold deleted_rows in Hsome. unfold after_delete, admin_drop_row in Hv.
  rewrite (rowcount_nonzero _ Hsome). simpl.
  rewrite Hv. simpl. rewrite <- app_assoc. reflexivity.
Qed.

(** The delete hits and the insert is accepted: the drop is committed,
    and the outcome is the one of the two calls that follow. *)
Lemma drop_committed (c s i : Z) (st : State) :
  let t0 := working (sql (world st)) in
  let t1 := after_insert c s (clock (world st)) (after_delete c s i t0) in
  let w1 := with_sql (world st) (settled_on t1) in
  let tr1 := trace st ++ [EvExecute (DeleteEnrollment c s c i);
                          EvExecute (InsertDroplist c s);
                          EvCommit t1;
                          EvIsAutoEnrollEnabled (settled_on t1)] in
  locked (sql (world st)) = false ->
  deleted_rows c s i t0 <> [] ->
  droplist_violation (after_delete c s i t0) (admin_drop_row c s (clock (world st)))
  = None ->
  drop c s i st
  = match is_auto_enroll_enabled w1 with
    | (Raises e, w2) => (Raises (translated e), {| world := w2; trace := tr1 |})
    | (Returns false, w2) => (Returns item_deleted, {| world := w2; trace := tr1 |})
    | (Returns true, w2) =>
        let tr2 := tr1 ++ [EvEnrollFromWaitlist (sql w2) [c]] in
        match enroll_students_from_waitlist [c] w2 with
        | (Returns _, w3) => (Returns item_deleted, {| world := w3; trace := tr2 |})
        | (Raises e, w3) => (Raises (translated e), {| world := w3; trace := tr2 |})
        end
    end.
Proof.
  intros t0 t1 w1 tr1 Hl Hsome Hv.
  destruct (is_auto_enroll_enabled w1) as [r w2] eqn:Hflag.
  subst t0 t1 w1 tr1. run_drop. rewrite Hl. simpl.
  unfold deleted_rows in Hsome. unfold after_delete, admin_drop_row in Hv.
  rewrite (rowcount_nonzero _ Hsome). simpl.
  rewrite Hv. simpl.
  unfold with_sql, settled_on, after_insert, after_delete, admin_drop_row in Hflag.
  simpl in Hflag. unfold with_sql. simpl. rewrite Hflag.
  destruct r as [[|]|e]; simpl; rewrite <- ?app_assoc; simpl.
  - destruct (enroll_students_from_waitlist [c] w2) as [[u|e] w3]; simpl;
      rewrite ?except_translated, <- ?app_assoc; reflexivity.
  - reflexivity.
  - now rewrite except_translated.
Qed.

#[local] Abbreviation raised :=
  (raised_in_try droplist_violation is_auto_enroll_enabled enroll_students_from_waitlist).

Lemma emitted_app {A} (m : M A) (st : State) (evs : list event) :
  trace (snd (m st)) = trace st ++ evs -> emitted m st = evs.
Proof. unfold emitted. intros ->. apply drop_app_length. Qed.

(** C1, as the code has it.  In a state where the enrollment row (c, s)
    exists and the class row c has the caller as instructor, and where
    moreover the connection is free, the schema accepts the droplist
    row and the two helper calls return, the drop issues the delete,
    the insert and one commit, in this order; the committed tables have
    no row (c, s) left in enrollment, every other enrollment row kept,
    and the droplist of before followed by one row (c, s, now, 1); the
    200 response is returned; and the world is the one the helper calls
    make of the world with these tables committed. *)
Theorem drop_class_success (c s i : Z) (st : State) (enabled : bool) (w2 w3 : World) :
  let t0 := working (sql (world st)) in
  let now := clock (world st) in
  let t1 := dropped c s now t0 in
  enrolled t0 c s ->
  teaches t0 c i ->
  locked (sql (world st)) = false ->
  droplist_violation (without_enrollment c s t0) (admin_drop_row c s now) = None ->
  is_auto_enroll_enabled (with_sql (world st) (settled_on t1)) = (Returns enabled, w2) ->
  (enabled = true -> enroll_students_from_waitlist [c] w2 = (Returns tt, w3)) ->
  fst (drop c s i st) = Returns item_deleted
  /\ status_code item_deleted = 200
  /\ world (snd (drop c s i st)) = (if enabled then w3 else w2)
  /\ emitted (drop c s i) st
     = [EvExecute (DeleteEnrollment c s c i); EvExecute (InsertDroplist c s);
        EvCommit t1; EvIsAutoEnrollEnabled (settled_on t1)]
       ++ (if enabled then [EvEnrollFromWaitlist (sql w2) [c]] else [])
  /\ ~ enrolled t1 c s
  /\ (forall e, e <> enrollment_of c s ->
                In e (enrollment t1) <-> In e (enrollment t0))
  /\ droplist t1 = droplist t0 ++ [admin_drop_row c s now]
  /\ administrative (admin_drop_row c s now) = 1
  /\ drop_date (admin_drop_row c s now) = now.
Proof.
  intros t0 now t1 He Ht Hl Hv Hflag Htrig. subst t0 now t1.
  pose proof (drop_committed c s i st Hl (deleted_rows_some c s i _ He Ht)) as Hrun.
  cbv zeta in Hrun.
  rewrite (after_delete_owned c s i _ Ht) in Hrun. specialize (Hrun Hv).
  change (after_insert c s (clock (world st))
            (without_enrollment c s (working (sql (world st)))))
    with (dropped c s (clock (world st)) (working (sql (world st)))) in Hrun.
  rewrite Hflag in Hrun.
  assert (Hout : fst (drop c s i st) = Returns item_deleted
                 /\ world (snd (drop c s i st)) = (if enabled then w3 else w2)
                 /\ trace (snd (drop c s i st))
                    = trace st
                      ++ [EvExecute (DeleteEnrollment c s c i);
                          EvExecute (InsertDroplist c s);
                          EvCommit (dropped c s (clock (world st)) (working (sql (world st))));
                          EvIsAutoEnrollEnabled
                            (settled_on (dropped c s (clock (world st))
                                           (working (sql (world st)))))]
                      ++ (if enabled then [EvEnrollFromWaitlist (sql w2) [c]] else [])).
  { destruct enabled.
    - rewrite (Htrig eq_refl) in Hrun.
      rewrite Hrun. simpl. rewrite <- ?app_assoc. repeat split.
    - rewrite Hrun. simpl. repeat split. }
  destruct Hout as (Hres & Hworld & Htr).
  split; [exact Hres|]. split; [reflexivity|]. split; [exact Hworld|].
  split; [now apply emitted_app|].
  split; [apply without_enrollment_gone|].
  split; [|repeat split].
  intros e Hne. unfold dropped, without_enrollment; simpl.
  rewrite filter_In. split; [tauto|]. intros Hin. split; [exact Hin|].
  now apply negb_true_iff, bool_decide_eq_false.
Qed.
(** C2, as the code has it.  When the Conflict comes from the droplist
    insert, nothing has been committed: the handler issued the delete
    and the insert and no commit, and the committed tables are those of
    before the call.  There is no rollback in the handler: the deletion
    stays pending in the connection's own view. *)
Theorem insert_conflict_commits_nothing (c s i : Z) (st : State) (msg : string) :
  let t0 := working (sql (world st)) in
  enrolled t0 c s ->
  teaches t0 c i ->
  locked (sql (world st)) = false ->
  droplist_violation (without_enrollment c s t0)
    (admin_drop_row c s (clock (world st))) = Some msg ->
  let after := world (snd (drop c s i st)) in
  is_http HTTP_409_CONFLICT (fst (drop c s i st))
  /\ committed (sql after) = committed (sql (world st))
  /\ commits (emitted (drop c s i) st) = []
  /\ working (sql after) = without_enrollment c s t0.
Proof.
  intros t0 He Ht Hl Hv after. subst t0 after.
  rewrite <- (after_delete_owned c s i _ Ht) in Hv.
  pose proof (drop_conflict c s i st msg Hl (deleted_rows_some c s i _ He Ht) Hv)
    as Hrun.
  cbv zeta in Hrun. rewrite (after_delete_owned c s i _ Ht) in Hrun.
  rewrite (emitted_app _ _ [EvExecute (DeleteEnrollment c s c i);
                            EvExecute (InsertDroplist c s)])
    by now rewrite Hrun.
  rewrite Hrun. simpl. repeat split. eexists; reflexivity.
Qed.

(** C3, as the code has it.  Whatever a step inside the [try] block
    raises, the caller gets it through the [except] clause: an
    [IntegrityError] as the 409 error whose detail carries the type
    name and the message, anything else as it was raised. *)
Theorem raised_in_try_reaches_caller (c s i : Z) (st : State) (e : exn) :
  raised c s i st e ->
  match e with
  | Sqlite3Error IntegrityError msg =>
      fst (drop c s i st)
      = Raises (HTTPException HTTP_409_CONFLICT (DetailTypeMsg "IntegrityError" msg))
  | _ => fst (drop c s i st) = Raises e
  end.
Proof.
  intros Hr.
  assert (Hout : fst (drop c s i st) = Raises (translated e)).
  { destruct Hr as [Hl | Hl Hnone | msg Hl Hsome Hv
                    | e w2 Hl Hsome Hv Hflag | e w2 w3 Hl Hsome Hv Hflag Htrig].
    - now rewrite drop_locked.
    - now rewrite drop_miss.
    - now rewrite (drop_conflict c s i st msg).
    - rewrite drop_committed by assumption. cbv zeta. now rewrite Hflag.
    - rewrite drop_committed by assumption. cbv zeta. now rewrite Hflag, Htrig. }
  rewrite Hout. destruct e as [| [] |]; reflexivity.
Qed.

(** C4. When the conditional delete affects zero rows, the drop raises
    the 404 error after that one statement: no insert, no commit, and
    the world - both views of the tables - is the one of before.  Zero
    rows means that the pair is not enrolled or that no class row has
    this id with the caller as instructor. *)
Theorem zero_rows_not_found (c s i : Z) (st : State) :
  fst (execute droplist_violation (DeleteEnrollment c s c i) st)
  = Returns {| rowcount := 0 |} ->
  fst (drop c s i st) = Raises record_not_found
  /\ is_http HTTP_404_NOT_FOUND (fst (drop c s i st))
  /\ world (snd (drop c s i st)) = world st
  /\ emitted (drop c s i) st = [EvExecute (DeleteEnrollment c s c i)]
  /\ (~ enrolled (working (sql (world st))) c s
      \/ ~ teaches (working (sql (world st))) c i).
Proof.
  intros Hzero.
  assert (Hl : locked (sql (world st)) = false).
  { revert Hzero. cbv [execute bind record get_world raise]. simpl.
    destruct (locked (sql (world st))); [discriminate|reflexivity]. }
  assert (Hnone : deleted_rows c s i (working (sql (world st))) = []).
  { revert Hzero. cbv [execute bind record get_world raise put_sql ret run_statement].
    simpl. rewrite Hl. simpl. intros Hzero.
    destruct (deleted_rows c s i (working (sql (world st)))) as [|e l] eqn:Hd;
      [reflexivity|].
    unfold deleted_rows in Hd. rewrite Hd in Hzero. discriminate Hzero. }
  pose proof (drop_miss c s i st Hl Hnone) as Hrun.
  rewrite (emitted_app _ _ [EvExecute (DeleteEnrollment c s c i)]) by now rewrite Hrun.
  rewrite Hrun. simpl. repeat split; [eexists; reflexivity|].
  destruct (In_dec enrollment_row_eq_dec (enrollment_of c s)
              (enrollment (working (sql (world st))))) as [He|Hne]; [|now left].
  right. intros Ht. now apply (deleted_rows_some c s i _ He Ht).
Qed.

(** The three causes give zero rows. *)
Lemma zero_rows_causes (c s i : Z) (st : State) :
  locked (sql (world st)) = false ->
  ~ enrolled (working (sql (world st))) c s
  \/ ~ teaches (working (sql (world st))) c i ->
  fst (execute droplist_violation (DeleteEnrollment c s c i) st)
  = Returns {| rowcount := 0 |}.
Proof.
  intros Hl Hcause. apply deleted_rows_none with (i := i) in Hcause.
  cbv [execute bind record get_world raise put_sql ret run_statement]. simpl.
  rewrite Hl. simpl. unfold deleted_rows in Hcause. now rewrite Hcause.
Qed.

(** C5. Once the drop is committed, the handler reads the flag on a
    connection that has nothing pending, and calls the trigger, with
    the one-element list [c], exactly when the flag read returned
    true: the trace is delete, insert, commit, flag read and then the
    trigger call or nothing; the commit is the only one, and it comes
    before both calls.  The world the run ends in is the one the
    trigger makes of the flag read's world when the flag read returned
    true, and the flag read's world otherwise; the outcome is the
    trigger's when it was called. *)
Theorem trigger_follows_flag (c s i : Z) (st : State) (r : Result bool) (w2 : World)
    (r' : Result unit) (w3 : World) :
  let t0 := working (sql (world st)) in
  let t1 := dropped c s (clock (world st)) t0 in
  enrolled t0 c s ->
  teaches t0 c i ->
  locked (sql (world st)) = false ->
  droplist_violation (without_enrollment c s t0)
    (admin_drop_row c s (clock (world st))) = None ->
  is_auto_enroll_enabled (with_sql (world st) (settled_on t1)) = (r, w2) ->
  enroll_students_from_waitlist [c] w2 = (r', w3) ->
  let evs := emitted (drop c s i) st in
  evs = [EvExecute (DeleteEnrollment c s c i); EvExecute (InsertDroplist c s);
         EvCommit t1; EvIsAutoEnrollEnabled (settled_on t1)]
        ++ match r with
           | Returns true => [EvEnrollFromWaitlist (sql w2) [c]]
           | _ => []
           end
  /\ commits evs = [t1]
  /\ trigger_calls evs = match r with Returns true => [[c]] | _ => [] end
  /\ world (snd (drop c s i st)) = match r with Returns true => w3 | _ => w2 end
  /\ fst (drop c s i st)
     = match r with
       | Returns true =>
           match r' with
           | Returns _ => Returns item_deleted
           | Raises e => Raises (translated e)
           end
       | Returns false => Returns item_deleted
       | Raises e => Raises (translated e)
       end.
Proof.
  intros t0 t1 He Ht Hl Hv Hflag Htrig evs. subst t0 t1 evs.
  pose proof (drop_committed c s i st Hl (deleted_rows_some c s i _ He Ht)) as Hrun.
  cbv zeta in Hrun.
  rewrite (after_delete_owned c s i _ Ht) in Hrun. specialize (Hrun Hv).
  change (after_insert c s (clock (world st))
            (without_enrollment c s (working (sql (world st)))))
    with (dropped c s (clock (world st)) (working (sql (world st)))) in Hrun.
  rewrite Hflag in Hrun.
  match goal with
  | |- ?l = ?evs /\ _ =>
      assert (Htr : trace (snd (drop c s i st)) = trace st ++ evs)
  end.
  { rewrite Hrun. destruct r as [[|]|e]; simpl; [|reflexivity..].
    rewrite Htrig. destruct r' as [u|e]; simpl; now rewrite <- app_assoc. }
  rewrite (emitted_app _ _ _ Htr).
  split; [reflexivity|].
  destruct r as [[|]|e]; [rewrite Htrig in Hrun|..]; rewrite Hrun;
    repeat split; now destruct r'.
Qed.



End DropProperties.

(** * The droplist across the operations of the router *)

Section RouterProperties.

Variable DYNAMO_TABLENAMES : string -> string.
Variable utf8_decode : string -> option string.
Variable droplist_violation : Tables -> droplist_row -> option string.
Variable is_auto_enroll_enabled : World -> Result bool * World.
Variable enroll_students_from_waitlist : list Z -> World -> Result unit * World.

#[local] Abbreviation dispatch :=
  (run DYNAMO_TABLENAMES utf8_decode droplist_violation is_auto_enroll_enabled
     enroll_students_from_waitlist).

(** A read handler changes no store and commits nothing. *)
Lemma read_handler_frame (h : M Response) (slug : string) (user : Personnel)
    (st : State) :
  h = get_current_enrollment DYNAMO_TABLENAMES slug user
  \/ h = get_waitlist DYNAMO_TABLENAMES utf8_decode slug user
  \/ h = get_droplist DYNAMO_TABLENAMES slug user ->
  world (snd (h st)) = world st /\ commits (emitted h st) = [].
Proof.
  intros Hh. unfold emitted.
  destruct Hh as [-> | [-> | ->]]; run_handler;
    destruct (negb (Z.of_nat (length (split "_" slug)) =? 2)) eqn:Hlen; simpl;
    try (rewrite drop_all; split; reflexivity).
  all: apply negb_false_iff, Z.eqb_eq in Hlen.
  all: destruct (split "_" slug) as [|term [|_class [|x l]]];
    try (simpl in Hlen; lia); simpl.
  all: destruct (dynamo_query _ _ _) as [|it its]; simpl;
    try (rewrite drop_app_length; split; reflexivity).
  all: match goal with
       | |- context [map_result ?f ?l] => destruct (map_result f l)
       end; simpl; rewrite <- app_assoc, drop_app_length; split; reflexivity.
Qed.

(** C9. Over the four operations, the droplist only grows, and only
    together with the removal of an enrollment.  Started with nothing
    pending on the connection, and with helper calls that leave the
    droplist alone, a read changes no store at all, and an operation
    either commits nothing and leaves the committed tables as they
    are, or it is the drop of an enrolled pair (c, s) and commits
    once: the tables without the rows (c, s) in enrollment and with
    one row (c, s, now, 1) after the rows the droplist had, which all
    stay as they were. *)
Theorem droplist_append_only (op : operation) (st : State) :
  working (sql (world st)) = committed (sql (world st)) ->
  keeps_droplist is_auto_enroll_enabled ->
  (forall cs, keeps_droplist (enroll_students_from_waitlist cs)) ->
  let before := committed (sql (world st)) in
  let after := committed (sql (world (snd (dispatch op st)))) in
  let now := clock (world st) in
  match op with
  | DropClass _ _ _ => True
  | _ => world (snd (dispatch op st)) = world st
  end
  /\
  ((commits (emitted (dispatch op) st) = [] /\ after = before)
   \/ exists c s i,
        op = DropClass c s i
        /\ enrolled before c s
        /\ commits (emitted (dispatch op) st) = [dropped c s now before]
        /\ droplist after = droplist before ++ [admin_drop_row c s now]).
Proof.
  intros Hidle Hkf Hkt before after now. subst before after now.
  destruct op as [slug user | slug user | slug user | c s i]; simpl.
  1-3: match goal with
       | |- context [emitted ?h ?s0] =>
           destruct (read_handler_frame h slug user s0) as [Hw Hc]; [auto|]
       end; rewrite Hw; split; [reflexivity|left; split; [exact Hc|reflexivity]].
  split; [exact I|].
  set (drop := drop_class droplist_violation is_auto_enroll_enabled
                 enroll_students_from_waitlist c s i).
  destruct (locked (sql (world st))) eqn:Hl.
  { left. pose proof (drop_locked droplist_violation is_auto_enroll_enabled
                        enroll_students_from_waitlist c s i st Hl) as Hrun.
    fold drop in Hrun.
    rewrite (emitted_app _ _ [EvExecute (DeleteEnrollment c s c i)]) by now rewrite Hrun.
    rewrite Hrun. split; reflexivity. }
  destruct (deleted_rows c s i (working (sql (world st)))) as [|e0 l0] eqn:Hd.
  { left. pose proof (drop_miss droplist_violation is_auto_enroll_enabled
                        enroll_students_from_waitlist c s i st Hl Hd) as Hrun.
    fold drop in Hrun.
    rewrite (emitted_app _ _ [EvExecute (DeleteEnrollment c s c i)]) by now rewrite Hrun.
    rewrite Hrun. split; reflexivity. }
  assert (Hsome : deleted_rows c s i (working (sql (world st))) <> [])
    by (rewrite Hd; discriminate).
  clear Hd. destruct (deleted_rows_cause c s i _ Hsome) as [He Ht].
  destruct (droplist_violation (after_delete c s i (working (sql (world st))))
              (admin_drop_row c s (clock (world st)))) as [msg|] eqn:Hv.
  { left. pose proof (drop_conflict droplist_violation is_auto_enroll_enabled
                        enroll_students_from_waitlist c s i st msg Hl Hsome Hv) as Hrun.
    fold drop in Hrun. cbv zeta in Hrun.
    rewrite (emitted_app _ _ [EvExecute (DeleteEnrollment c s c i);
                              EvExecute (InsertDroplist c s)]) by now rewrite Hrun.
    rewrite Hrun. split; reflexivity. }
  right. exists c, s, i. rewrite <- Hidle.
  split; [reflexivity|]. split; [exact He|].
  pose proof (drop_committed droplist_violation is_auto_enroll_enabled
                enroll_students_from_waitlist c s i st Hl Hsome Hv) as Hrun.
  fold drop in Hrun. cbv zeta in Hrun.
  rewrite (after_delete_owned c s i _ Ht) in Hrun.
  change (after_insert c s (clock (world st))
            (without_enrollment c s (working (sql (world st)))))
    with (dropped c s (clock (world st)) (working (sql (world st)))) in Hrun.
  match type of Hrun with
  | context [is_auto_enroll_enabled ?w] =>
      pose proof (Hkf w) as Hd2;
      destruct (is_auto_enroll_enabled w) as [[[|]|e] w2]
  end; simpl in Hd2.
  1: pose proof (Hkt [c] w2) as Hd3;
     destruct (enroll_students_from_waitlist [c] w2) as [[u|e] w3]; simpl in Hd3.
  all: match type of Hrun with
       | _ = (_, {| world := _; trace := trace _ ++ ?evs |}) =>
           rewrite (emitted_app _ _ evs) by now rewrite Hrun
       | _ = (_, {| world := _; trace := (trace _ ++ ?evs) ++ ?evs' |}) =>
           rewrite (emitted_app _ _ (evs ++ evs'))
             by (rewrite Hrun; simpl; now rewrite <- app_assoc)
       end.
  all: rewrite Hrun; simpl; split; [reflexivity|congruence].
Qed.

End RouterProperties.

(** * The handlers on the sample data *)

Example sample_roster :
  fst (get_current_enrollment sample_tablenames "fall_cs101" {| cwid := 3 |} sample_state)
  = Returns (JSONResponse 200
               (JObj [("data", JArr [JObj [("cwid", JStr "7")];
                                     JObj [("cwid", JStr "8")]])])).
Proof. vm_compute. reflexivity. Qed.

Example sample_droplist :
  fst (get_droplist sample_tablenames "fall_cs101" {| cwid := 3 |} sample_state)
  = Returns (JSONResponse 200
               (JObj [("data", JArr [JObj [("student_cwid", JStr "5")]])])).
Proof. vm_compute. reflexivity. Qed.

Example sample_waitlist :
  fst (get_waitlist sample_tablenames sample_decode "fall_cs101" {| cwid := 3 |} sample_state)
  = Returns (JSONResponse 200
               (JObj [("data", JArr [JObj [("student_cwid", JStr "9")];
                                     JObj [("student_cwid", JStr "10")]])])).
Proof. vm_compute. reflexivity. Qed.

Example sample_roster_other_instructor :
  fst (get_current_enrollment sample_tablenames "fall_cs101" {| cwid := 4 |} sample_state)
  = Raises class_information_not_found.
Proof. vm_compute. reflexivity. Qed.

Example sample_drop :
  sql (world (snd (drop_class no_constraint flag_off enroll_nine 12 7 3 sample_state)))
  = settled_on
      {| class := [ {| c_id := 12; c_instructor_id := 3 |} ];
         enrollment := [ enrollment_of 12 8 ];
         droplist := [ admin_drop_row 12 7 "2023-11-01 10:00:00" ] |}.
Proof. vm_compute. reflexivity. Qed.

(** * Witnesses and counterexamples *)

Lemma drop_class_success_witness :
  enrolled sample_tables 12 7
  /\ teaches sample_tables 12 3
  /\ fst (drop_class no_constraint flag_on enroll_nine 12 7 3 sample_state)
     = Returns item_deleted
  /\ sql (world (snd (drop_class no_constraint flag_on enroll_nine 12 7 3 sample_state)))
     = settled_on (with_nine [12] (dropped 12 7 "2023-11-01 10:00:00" sample_tables)).
Proof.
  split; [now left|]. split; [now left|].
  destruct (drop_class_success no_constraint flag_on enroll_nine
              12 7 3 sample_state true
              (with_sql sample_world
                 (settled_on (dropped 12 7 "2023-11-01 10:00:00" sample_tables)))
              (with_sql sample_world
                 (settled_on (with_nine [12]
                                (dropped 12 7 "2023-11-01 10:00:00" sample_tables)))))
    as (W1 & _ & W2 & _).
  - now left.
  - now left.
  - reflexivity.
  - reflexivity.
  - reflexivity.
  - intros _. reflexivity.
  - split; [exact W1|]. rewrite W2. reflexivity.
Defined.

(** C1 does not hold as stated.  With the pair enrolled and the class
    owned, the drop still fails when the database is locked (nothing is
    removed), when the schema refuses the droplist row (nothing is
    committed), and when the flag read or the trigger raises (no 200
    response). *)
Lemma owned_drop_not_always_done :
  enrolled sample_tables 12 7
  /\ teaches sample_tables 12 3
  /\ working (sql (world sample_state_locked)) = sample_tables
  /\ (fst (drop_class no_constraint flag_on enroll_nine 12 7 3 sample_state_locked)
      = Raises (Sqlite3Error OperationalError "database is locked")
      /\ world (snd (drop_class no_constraint flag_on enroll_nine 12 7 3
                       sample_state_locked))
         = world sample_state_locked)
  /\ (enrolled (working (sql (world sample_state_redropped))) 12 7
      /\ teaches (working (sql (world sample_state_redropped))) 12 3
      /\ is_http HTTP_409_CONFLICT
           (fst (drop_class unique_pair flag_on enroll_nine 12 7 3
                   sample_state_redropped))
      /\ committed (sql (world (snd
            (drop_class unique_pair flag_on enroll_nine 12 7 3
               sample_state_redropped))))
         = committed (sql (world sample_state_redropped)))
  /\ is_http HTTP_409_CONFLICT
       (fst (drop_class no_constraint flag_on enroll_fails 12 7 3 sample_state))
  /\ fst (drop_class no_constraint
            (fun w => (Raises (Sqlite3Error OperationalError "no such table: configs"), w))
            enroll_nine 12 7 3 sample_state)
     = Raises (Sqlite3Error OperationalError "no such table: configs").
Proof.
  split; [now left|]. split; [now left|]. split; [reflexivity|].
  split; [split; vm_compute; reflexivity|].
  split; [split; [now left|split; [now left|split;
           [eexists; vm_compute; reflexivity|vm_compute; reflexivity]]]|].
  split; [eexists; vm_compute; reflexivity|].
  vm_compute. reflexivity.
Qed.

(** C2 does not hold as stated.  The trigger call sits inside the [try]
    block, so an [IntegrityError] it raises is reported as a Conflict
    although the drop has been committed; and after a Conflict raised
    by the insert the handler rolls nothing back: the connection still
    holds the deletion. *)
Lemma conflict_not_rolled_back :
  (is_http HTTP_409_CONFLICT
     (fst (drop_class no_constraint flag_on enroll_fails 12 7 3 sample_state))
   /\ enrollment (committed (sql (world (snd
         (drop_class no_constraint flag_on enroll_fails 12 7 3 sample_state)))))
      <> enrollment (committed (sql (world sample_state)))
   /\ droplist (committed (sql (world (snd
         (drop_class no_constraint flag_on enroll_fails 12 7 3 sample_state)))))
      <> droplist (committed (sql (world sample_state))))
  /\ (is_http HTTP_409_CONFLICT
        (fst (drop_class unique_pair flag_on enroll_nine 12 7 3 sample_state_redropped))
      /\ enrollment (working (sql (world (snd
            (drop_class unique_pair flag_on enroll_nine 12 7 3 sample_state_redropped)))))
         <> enrollment (working (sql (world sample_state_redropped)))).
Proof.
  split; (split; [eexists; vm_compute; reflexivity|]).
  - split; vm_compute; discriminate.
  - vm_compute; discriminate.
Qed.

Lemma insert_conflict_commits_nothing_witness :
  is_http HTTP_409_CONFLICT
    (fst (drop_class unique_pair flag_on enroll_nine 12 7 3 sample_state_redropped))
  /\ committed (sql (world (snd
        (drop_class unique_pair flag_on enroll_nine 12 7 3 sample_state_redropped))))
     = committed (sql (world sample_state_redropped)).
Proof.
  pose proof (insert_conflict_commits_nothing unique_pair flag_on enroll_nine
                12 7 3 sample_state_redropped
                "UNIQUE constraint failed: droplist.class_id, droplist.student_id")
    as W.
  cbv zeta in W.
  destruct W as (W1 & W2 & _).
  - now left.
  - now left.
  - reflexivity.
  - reflexivity.
  - split; assumption.
Defined.

(** C3 does not hold as stated: the [except] clause names
    [sqlite3.IntegrityError] only, so the [OperationalError] of a locked
    database reaches the caller as it is. *)
Lemma locked_error_not_conflict :
  fst (drop_class no_constraint flag_on enroll_nine 12 7 3 sample_state_locked)
  = Raises (Sqlite3Error OperationalError "database is locked")
  /\ ~ is_http HTTP_409_CONFLICT
         (fst (drop_class no_constraint flag_on enroll_nine 12 7 3 sample_state_locked)).
Proof.
  split; [vm_compute; reflexivity|].
  intros [d Hd]. vm_compute in Hd. discriminate Hd.
Qed.

Lemma raised_in_try_reaches_caller_witness :
  fst (drop_class unique_pair flag_on enroll_nine 12 7 3 sample_state_redropped)
  = Raises (HTTPException HTTP_409_CONFLICT
              (DetailTypeMsg "IntegrityError"
                 "UNIQUE constraint failed: droplist.class_id, droplist.student_id")).
Proof.
  apply (raised_in_try_reaches_caller unique_pair flag_on enroll_nine
           12 7 3 sample_state_redropped
           (Sqlite3Error IntegrityError
              "UNIQUE constraint failed: droplist.class_id, droplist.student_id")).
  apply insert_violation; [reflexivity|vm_compute; discriminate|reflexivity].
Defined.

Lemma zero_rows_not_found_witness :
  fst (execute no_constraint (DeleteEnrollment 12 7 12 4) sample_state)
  = Returns {| rowcount := 0 |}
  /\ fst (drop_class no_constraint flag_on enroll_nine 12 7 4 sample_state)
     = Raises record_not_found
  /\ world (snd (drop_class no_constraint flag_on enroll_nine 12 7 4 sample_state))
     = world sample_state.
Proof.
  assert (H0 : fst (execute no_constraint (DeleteEnrollment 12 7 12 4) sample_state)
               = Returns {| rowcount := 0 |}) by reflexivity.
  destruct (zero_rows_not_found no_constraint flag_on enroll_nine 12 7 4
              sample_state H0) as (W1 & _ & W2 & _).
  repeat split; assumption.
Defined.

Lemma trigger_follows_flag_witness :
  (trigger_calls (emitted (drop_class no_constraint flag_off enroll_nine 12 7 3) sample_state)
   = []
   /\ sql (world (snd (drop_class no_constraint flag_off enroll_nine 12 7 3 sample_state)))
      = settled_on (dropped 12 7 "2023-11-01 10:00:00" sample_tables))
  /\ (trigger_calls (emitted (drop_class no_constraint flag_on enroll_nine 12 7 3) sample_state)
      = [[12]]
      /\ sql (world (snd (drop_class no_constraint flag_on enroll_nine 12 7 3 sample_state)))
         = settled_on (with_nine [12]
                         (dropped 12 7 "2023-11-01 10:00:00" sample_tables))).
Proof.
  split.
  - destruct (trigger_follows_flag no_constraint flag_off enroll_nine
                12 7 3 sample_state (Returns false)
                (with_sql sample_world
                   (settled_on (dropped 12 7 "2023-11-01 10:00:00" sample_tables)))
                (Returns tt)
                (with_sql sample_world
                   (settled_on (with_nine [12]
                                  (dropped 12 7 "2023-11-01 10:00:00" sample_tables)))))
      as (_ & _ & W1 & W2 & _).
    + now left.
    + now left.
    + reflexivity.
    + reflexivity.
    + reflexivity.
    + reflexivity.
    + split; [exact W1|]. rewrite W2. reflexivity.
  - destruct (trigger_follows_flag no_constraint flag_on enroll_nine
                12 7 3 sample_state (Returns true)
                (with_sql sample_world
                   (settled_on (dropped 12 7 "2023-11-01 10:00:00" sample_tables)))
                (Returns tt)
                (with_sql sample_world
                   (settled_on (with_nine [12]
                                  (dropped 12 7 "2023-11-01 10:00:00" sample_tables)))))
      as (_ & _ & W1 & W2 & _).
    + now left.
    + now left.
    + reflexivity.
    + reflexivity.
    + reflexivity.
    + reflexivity.
    + split; [exact W1|]. rewrite W2. reflexivity.
Defined.



Lemma malformed_key_bad_request_witness :
  count_char "_" "fall_cs_101" <> 1%nat
  /\ is_http BAD_REQUEST
       (fst (get_waitlist sample_tablenames sample_decode "fall_cs_101"
               {| cwid := 3 |} sample_state)).
Proof.
  assert (H : count_char "_" "fall_cs_101" <> 1%nat) by (simpl; lia).
  split; [exact H|].
  exact (proj1 (proj1 (proj2 (proj2
           (malformed_key_bad_request sample_tablenames sample_decode
              "fall_cs_101" {| cwid := 3 |} sample_state H))))).
Defined.

Lemma read_handlers_check_ownership_witness :
  split "_" "fall_cs101" = ["fall"; "cs101"]
  /\ answers_only_owner
       (get_current_enrollment sample_tablenames "fall_cs101" {| cwid := 4 |})
       (dynamo sample_world !!! "class") "fall" "cs101" {| cwid := 4 |} sample_state.
Proof.
  split; [reflexivity|].
  exact (proj1 (read_handlers_check_ownership sample_tablenames sample_decode
                  "fall_cs101" "fall" "cs101" {| cwid := 4 |} sample_state eq_refl)).
Defined.

Lemma droplist_append_only_witness :
  droplist (committed (sql (world (snd
     (run sample_tablenames sample_decode no_constraint flag_on enroll_nine
        (DropClass 12 7 3) sample_state)))))
  = [admin_drop_row 12 7 "2023-11-01 10:00:00"].
Proof.
  destruct (droplist_append_only sample_tablenames sample_decode no_constraint
              flag_on enroll_nine (DropClass 12 7 3) sample_state)
    as [_ [[Hc _]|(c & s & i & Hop & _ & _ & Hd)]].
  - reflexivity.
  - intros w. reflexivity.
  - intros cs w. reflexivity.
  - vm_compute in Hc. discriminate Hc.
  - injection Hop as <- <- <-. exact Hd.
Defined.

(** C10 does not hold as stated.  The key "_cs101" passes the format
    check and no class matches its empty term, yet under an engine
    that refuses empty key values the three handlers raise the engine's
    error, not the 404 error. *)
Lemma empty_part_refused_not_404 :
  count_char "_" "_cs101" = 1%nat
  /\ split "_" "_cs101" = [""; "cs101"]
  /\ ~ owns_class (dynamo sample_world !!! sample_tablenames "class")
        "" "cs101" {| cwid := 3 |}
  /\ fst (get_current_enrollment_with validating_query sample_tablenames "_cs101"
            {| cwid := 3 |} sample_state)
     = Raises (PyException "ClientError" "ValidationException")
  /\ fst (get_waitlist_with validating_query sample_tablenames sample_decode "_cs101"
            {| cwid := 3 |} sample_state)
     = Raises (PyException "ClientError" "ValidationException")
  /\ fst (get_droplist_with validating_query sample_tablenames "_cs101"
            {| cwid := 3 |} sample_state)
     = Raises (PyException "ClientError" "ValidationException")
  /\ ~ is_http HTTP_404_NOT_FOUND
        (fst (get_droplist_with validating_query sample_tablenames "_cs101"
                {| cwid := 3 |} sample_state)).
Proof.
  split; [reflexivity|]. split; [reflexivity|]. split.
  { intros (it & Hin & Hterm & _).
    vm_compute in Hin. destruct Hin as [<-|[]].
    vm_compute in Hterm. discriminate Hterm. }
  repeat split; try (vm_compute; reflexivity).
  intros [d Hd]. vm_compute in Hd. discriminate Hd.
Qed.

Lemma empty_components_reach_lookup_witness :
  count_char "_" "_cs101" = 1%nat
  /\ split "_" "_cs101" = [""; "cs101"]
  /\ get_droplist_with validating_query sample_tablenames "_cs101"
       {| cwid := 3 |} sample_state
     = (Raises (PyException "ClientError" "ValidationException"),
        {| world := sample_world;
           trace := [EvDynamoQuery "class"
                       (query_class_information_params "" "cs101" {| cwid := 3 |})] |})
  /\ get_droplist sample_tablenames "_cs101" {| cwid := 3 |} sample_state
     = (Raises class_information_not_found,
        {| world := sample_world;
           trace := [EvDynamoQuery "class"
                       (query_class_information_params "" "cs101" {| cwid := 3 |})] |}).
Proof.
  split; [reflexivity|]. split; [reflexivity|]. split.
  - destruct (empty_components_reach_lookup validating_query sample_tablenames
                sample_decode "_cs101" "" "cs101" {| cwid := 3 |} sample_state
                eq_refl eq_refl (or_introl eq_refl)) as (_ & _ & _ & _ & _ & W).
    apply (W "ValidationException"). reflexivity.
  - destruct (empty_components_reach_lookup spec_query sample_tablenames
                sample_decode "_cs101" "" "cs101" {| cwid := 3 |} sample_state
                eq_refl eq_refl (or_introl eq_refl)) as (_ & _ & _ & _ & W & _).
    apply W. vm_compute. reflexivity.
Defined.

(** * Further properties of the read handlers *)

Lemma map_result_map {A B C} (g : A -> B) (f : B -> Result C) (xs : list A) :
  map_result f (map g xs) = map_result (fun x => f (g x)) xs.
Proof.
  induction xs as [|x xs IH]; simpl; [reflexivity|]. now rewrite IH.
Qed.

Lemma map_result_ext {A B} (f g : A -> Result B) (xs : list A) :
  (forall x, f x = g x) -> map_result f xs = map_result g xs.
Proof.
  intros Hfg. induction xs as [|x xs IH]; simpl; [reflexivity|].
  now rewrite Hfg, IH.
Qed.

(** All elements go through: the comprehension is the image list. *)
Lemma map_result_all {A B C} (get : A -> option B) (wrap : B -> C)
    (fail : A -> exn) (xs : list A) (vs : list B) :
  map get xs = map Some vs ->
  map_result (fun x => match get x with
                       | Some v => Returns (wrap v)
                       | None => Raises (fail x)
                       end) xs
  = Returns (map wrap vs).
Proof.
  revert vs. induction xs as [|x xs IH]; intros [|v vs] Heq;
    try discriminate Heq; [reflexivity|].
  simpl in Heq. injection Heq as Hx Hxs. simpl.
  now rewrite Hx, (IH vs Hxs).
Qed.

(** One element does not go through: the comprehension raises at the
    first such element. *)
Lemma map_result_first_failure {A B C} (get : A -> option B) (wrap : B -> C)
    (fail : A -> exn) (xs : list A) :
  (exists x, In x xs /\ get x = None) ->
  exists x, In x xs /\ get x = None
    /\ map_result (fun x => match get x with
                            | Some v => Returns (wrap v)
                            | None => Raises (fail x)
                            end) xs
       = Raises (fail x).
Proof.
  induction xs as [|a xs IH]; intros (x & Hin & Hx); [destruct Hin|].
  simpl. destruct (get a) as [v|] eqn:Ha.
  - destruct Hin as [->|Hin]; [congruence|].
    destruct IH as (y & Hy & Hgy & Hm); [now exists x|].
    exists y. rewrite Hm. auto.
  - exists a. auto.
Qed.

(** The same, with the place of the failure: every element before it
    goes through. *)
Lemma map_result_fails_at_first {A B C} (get : A -> option B) (wrap : B -> C)
    (fail : A -> exn) (xs : list A) :
  (exists x, In x xs /\ get x = None) ->
  exists before x after,
    xs = before ++ x :: after
    /\ Forall (fun y => is_Some (get y)) before
    /\ get x = None
    /\ map_result (fun x => match get x with
                            | Some v => Returns (wrap v)
                            | None => Raises (fail x)
                            end) xs
       = Raises (fail x).
Proof.
  induction xs as [|a xs IH]; intros (x & Hin & Hx); [destruct Hin|].
  simpl. destruct (get a) as [v|] eqn:Ha.
  - destruct Hin as [->|Hin]; [congruence|].
    destruct IH as (before & y & after & -> & Hall & Hgy & Hm); [now exists x|].
    exists (a :: before), y, after. rewrite Hm.
    repeat split; auto.
  - exists [], a, xs. repeat split; auto.
Qed.

Lemma getitem_match {C} (it : gmap string attr) (key : string)
    (wrap : attr -> C) :
  match getitem it key with
  | Returns v => Returns (wrap v)
  | Raises e => Raises e
  end
  = match it !! key with
    | Some v => Returns (wrap v)
    | None => Raises (PyException "KeyError" key)
    end.
Proof. unfold getitem. now destruct (it !! key). Qed.

Lemma decode_match {C} (utf8_decode : string -> option string) (x : string)
    (wrap : string -> C) :
  match decode utf8_decode x with
  | Returns v => Returns (wrap v)
  | Raises e => Raises e
  end
  = match utf8_decode x with
    | Some v => Returns (wrap v)
    | None => Raises (PyException "UnicodeDecodeError" x)
    end.
Proof. unfold decode. now destruct (utf8_decode x). Qed.

(** The projection on a key keeps the value under that key. *)
Lemma project_lookup (key : string) (it : gmap string attr) :
  project (Some [key]) it !! key = it !! key.
Proof.
  unfold project. apply option_eq. intros v.
  rewrite map_lookup_filter_Some. simpl. split; [tauto|].
  intros Hv. split; [exact Hv|]. apply list_elem_of_In. now left.
Qed.

(** A query by (term, class) alone, without filter, answers with the
    items of the class, projected. *)
Lemma dynamo_query_class_items tables tablename index term _class proj :
  dynamo_query tables tablename
    {| IndexName := index;
       KeyConditionExpression := [("term", AttrS term); ("class", AttrS _class)];
       FilterExpression := [];
       ProjectionExpression := proj |}
  = map (project proj) (class_items term _class (tables !!! tablename)).
Proof.
  unfold dynamo_query, class_items. simpl. f_equal.
  apply filter_ext. intros it. unfold satisfies, key_matches. simpl.
  rewrite !andb_true_r.
  destruct (decide (it !! "term" = Some (AttrS term))) as [Ht|Ht];
    destruct (decide (it !! "class" = Some (AttrS _class))) as [Hc|Hc].
  - rewrite !bool_decide_eq_true_2; auto.
  - rewrite (bool_decide_eq_false_2 _ Hc), andb_false_r.
    symmetry. apply bool_decide_eq_false_2. tauto.
  - rewrite (bool_decide_eq_false_2 _ Ht). simpl.
    symmetry. apply bool_decide_eq_false_2. tauto.
  - rewrite (bool_decide_eq_false_2 _ Ht). simpl.
    symmetry. apply bool_decide_eq_false_2. tauto.
Qed.

Lemma zrange_top_sixteen sets name : zrange sets name 0 15 = top_sixteen sets name.
Proof. reflexivity. Qed.

Lemma owned_lookup_nonempty tables tablename term _class user :
  owns_class (tables !!! tablename) term _class user ->
  exists it its,
    dynamo_query tables tablename (query_class_information_params term _class user)
    = it :: its.
Proof.
  intros Ho.
  destruct (dynamo_query tables tablename
              (query_class_information_params term _class user)) as [|it its] eqn:Hq.
  - apply class_lookup_empty in Hq. now destruct Hq.
  - eauto.
Qed.

Section ReadResults.

Variable DYNAMO_TABLENAMES : string -> string.
Variable utf8_decode : string -> option string.

#[local] Abbreviation roster := (get_current_enrollment DYNAMO_TABLENAMES).
#[local] Abbreviation waitlist := (get_waitlist DYNAMO_TABLENAMES utf8_decode).
#[local] Abbreviation dropped_students := (get_droplist DYNAMO_TABLENAMES).

(** X1. For a key term_class of a class the caller owns, the roster
    handler answers 200 with one [{"cwid": str(v)}] per item of the
    enrollment table that has this term and class, in table order, [v]
    being the item's [student_cwid]; items of other classes do not
    show.  It has made two queries: the ownership lookup, then the
    enrollment query on the index, projected on [student_cwid]. *)
Theorem roster_lists_class_enrollment (slug term _class : string)
    (user : Personnel) (st : State) (cwids : list attr) :
  split "_" slug = [term; _class] ->
  owns_class (dynamo (world st) !!! DYNAMO_TABLENAMES "class") term _class user ->
  map (fun it => it !! "student_cwid")
    (class_items term _class (dynamo (world st) !!! DYNAMO_TABLENAMES "enrollment"))
  = map Some cwids ->
  fst (roster slug user st)
  = Returns (JSONResponse 200
               (JObj [("data",
                       JArr (map (fun v => JObj [("cwid", JStr (py_str v))]) cwids))]))
  /\ emitted (roster slug user) st
     = [EvDynamoQuery (DYNAMO_TABLENAMES "class")
          (query_class_information_params term _class user);
        EvDynamoQuery (DYNAMO_TABLENAMES "enrollment")
          {| IndexName := Some "class_enrollment";
             KeyConditionExpression := [("term", AttrS term); ("class", AttrS _class)];
             FilterExpression := [];
             ProjectionExpression := Some ["student_cwid"] |}]
  /\ world (snd (roster slug user st)) = world st.
Proof.
  intros Hs Ho Hcw.
  destruct (owned_lookup_nonempty _ _ _ _ _ Ho) as (it & its & Hq).
  unfold emitted. run_handler. rewrite Hs. simpl. rewrite Hq.
  rewrite dynamo_query_class_items, map_result_map.
  rewrite (map_result_ext _
             (fun x => match x !! "student_cwid" with
                       | Some v => Returns (JObj [("cwid", JStr (py_str v))])
                       | None => Raises (PyException "KeyError" "student_cwid")
                       end))
    by (intros x; now rewrite getitem_match, project_lookup).
  rewrite (map_result_all _ _ _ _ cwids Hcw). simpl.
  rewrite <- app_assoc, drop_app_length. repeat split.
Qed.


(** X5. For a key of a class the caller owns, the droplist handler
    answers 200 with one [{"student_cwid": str(v)}] per item of the
    droplist table that has this term and class, in table order; its
    second query goes to the droplist table on its index, unprojected. *)
Theorem droplist_lists_class_drops (slug term _class : string)
    (user : Personnel) (st : State) (cwids : list attr) :
  split "_" slug = [term; _class] ->
  owns_class (dynamo (world st) !!! DYNAMO_TABLENAMES "class") term _class user ->
  map (fun it => it !! "student_cwid")
    (class_items term _class (dynamo (world st) !!! DYNAMO_TABLENAMES "droplist"))
  = map Some cwids ->
  fst (dropped_students slug user st)
  = Returns (JSONResponse 200
               (JObj [("data",
                       JArr (map (fun v => JObj [("student_cwid", JStr (py_str v))])
                               cwids))]))
  /\ emitted (dropped_students slug user) st
     = [EvDynamoQuery (DYNAMO_TABLENAMES "class")
          (query_class_information_params term _class user);
        EvDynamoQuery (DYNAMO_TABLENAMES "droplist")
          {| IndexName := Some "class_dropped_students";
             KeyConditionExpression := [("term", AttrS term); ("class", AttrS _class)];
             FilterExpression := [];
             ProjectionExpression := None |}]
  /\ world (snd (dropped_students slug user st)) = world st.
Proof.
  intros Hs Ho Hcw.
  destruct (owned_lookup_nonempty _ _ _ _ _ Ho) as (it & its & Hq).
  unfold emitted. run_handler. rewrite Hs. simpl. rewrite Hq.
  rewrite dynamo_query_class_items, map_result_map.
  rewrite (map_result_ext _
             (fun x => match x !! "student_cwid" with
                       | Some v => Returns (JObj [("student_cwid", JStr (py_str v))])
                       | None => Raises (PyException "KeyError" "student_cwid")
                       end))
    by (intros x; now rewrite getitem_match).
  rewrite (map_result_all _ _ _ _ cwids Hcw). simpl.
  rewrite <- app_assoc, drop_app_length. repeat split.
Qed.

(** X2. An item of the class without a [student_cwid] attribute makes
    the roster handler, and likewise the droplist handler, raise
    [KeyError] for that key - after the ownership check has passed, and
    whatever the other items hold. *)
Theorem missing_cwid_key_error (slug term _class : string)
    (user : Personnel) (st : State) :
  split "_" slug = [term; _class] ->
  owns_class (dynamo (world st) !!! DYNAMO_TABLENAMES "class") term _class user ->
  ((exists it,
      In it (class_items term _class
               (dynamo (world st) !!! DYNAMO_TABLENAMES "enrollment"))
      /\ it !! "student_cwid" = None) ->
   fst (roster slug user st) = Raises (PyException "KeyError" "student_cwid"))
  /\ ((exists it,
         In it (class_items term _class
                  (dynamo (world st) !!! DYNAMO_TABLENAMES "droplist"))
         /\ it !! "student_cwid" = None) ->
      fst (dropped_students slug user st)
      = Raises (PyException "KeyError" "student_cwid")).
Proof.
  intros Hs Ho.
  destruct (owned_lookup_nonempty _ _ _ _ _ Ho) as (it0 & its & Hq).
  split; intros Hmiss; run_handler; rewrite Hs; simpl; rewrite Hq; simpl;
    rewrite dynamo_query_class_items, map_result_map.
  - rewrite (map_result_ext _
               (fun x => match x !! "student_cwid" with
                         | Some v => Returns (JObj [("cwid", JStr (py_str v))])
                         | None => Raises (PyException "KeyError" "student_cwid")
                         end))
      by (intros x; now rewrite getitem_match, project_lookup).
    destruct (map_result_first_failure (fun x : gmap string attr => x !! "student_cwid")
                (fun v => JObj [("cwid", JStr (py_str v))])
                (fun _ => PyException "KeyError" "student_cwid") _ Hmiss)
      as (x & _ & _ & Hm).
    cbv beta in Hm. now rewrite Hm.
  - rewrite (map_result_ext _
               (fun x => match x !! "student_cwid" with
                         | Some v => Returns (JObj [("student_cwid", JStr (py_str v))])
                         | None => Raises (PyException "KeyError" "student_cwid")
                         end))
      by (intros x; now rewrite getitem_match).
    destruct (map_result_first_failure (fun x : gmap string attr => x !! "student_cwid")
                (fun v => JObj [("student_cwid", JStr (py_str v))])
                (fun _ => PyException "KeyError" "student_cwid") _ Hmiss)
      as (x & _ & _ & Hm).
    cbv beta in Hm. now rewrite Hm.
Qed.

(** X3. For a key term_class of a class the caller owns, the waitlist
    handler reads the sorted set named class-term, ranks 0 to 15, and
    answers 200 with the decoded members it got, in rank order: at most
    sixteen entries, whatever the length of the waitlist. *)
Theorem waitlist_shows_first_sixteen (slug term _class : string)
    (user : Personnel) (st : State) (names : list string) :
  split "_" slug = [term; _class] ->
  owns_class (dynamo (world st) !!! DYNAMO_TABLENAMES "class") term _class user ->
  map utf8_decode (top_sixteen (redis (world st)) (_class +:+ "-" +:+ term))
  = map Some names ->
  fst (waitlist slug user st)
  = Returns (JSONResponse 200
               (JObj [("data",
                       JArr (map (fun s => JObj [("student_cwid", JStr s)]) names))]))
  /\ (length names <= 16)%nat
  /\ emitted (waitlist slug user) st
     = [EvDynamoQuery (DYNAMO_TABLENAMES "class")
          (query_class_information_params term _class user);
        EvRedisZrange (_class +:+ "-" +:+ term) 0 15]
  /\ world (snd (waitlist slug user st)) = world st.
Proof.
  intros Hs Ho Hdec.
  destruct (owned_lookup_nonempty _ _ _ _ _ Ho) as (it & its & Hq).
  assert (Hlen : (length names <= 16)%nat).
  { apply (f_equal (@length _)) in Hdec. rewrite !length_map in Hdec.
    rewrite <- Hdec. unfold top_sixteen. rewrite length_take. lia. }
  unfold emitted. run_handler. rewrite Hs. simpl. rewrite Hq.
  rewrite zrange_top_sixteen.
  rewrite (map_result_ext _
             (fun x => match utf8_decode x with
                       | Some v => Returns (JObj [("student_cwid", JStr v)])
                       | None => Raises (PyException "UnicodeDecodeError" x)
                       end))
    by (intros x; now rewrite decode_match).
  rewrite (map_result_all _ _ _ _ names Hdec). simpl.
  rewrite <- app_assoc, drop_app_length. repeat split. exact Hlen.
Qed.

(** X4. A member among the first sixteen that is not UTF-8 makes the
    waitlist handler raise [UnicodeDecodeError] on the first such
    member: every member ranked before it decodes, and it is the one
    the error names.  Members of rank sixteen and beyond are never
    decoded. *)
Theorem waitlist_undecodable_member (slug term _class : string)
    (user : Personnel) (st : State) :
  split "_" slug = [term; _class] ->
  owns_class (dynamo (world st) !!! DYNAMO_TABLENAMES "class") term _class user ->
  (exists x, In x (top_sixteen (redis (world st)) (_class +:+ "-" +:+ term))
             /\ utf8_decode x = None) ->
  exists before x after,
    top_sixteen (redis (world st)) (_class +:+ "-" +:+ term) = before ++ x :: after
    /\ Forall (fun y => is_Some (utf8_decode y)) before
    /\ utf8_decode x = None
    /\ fst (waitlist slug user st) = Raises (PyException "UnicodeDecodeError" x).
Proof.
  intros Hs Ho Hbad.
  destruct (owned_lookup_nonempty _ _ _ _ _ Ho) as (it & its & Hq).
  destruct (map_result_fails_at_first utf8_decode
              (fun s => JObj [("student_cwid", JStr s)])
              (fun x => PyException "UnicodeDecodeError" x) _ Hbad)
    as (before & x & after & Hsplit & Hall & Hx & Hm).
  cbv beta in Hm.
  exists before, x, after.
  split; [exact Hsplit|]. split; [exact Hall|]. split; [exact Hx|].
  run_handler. rewrite Hs. simpl. rewrite Hq. simpl. rewrite zrange_top_sixteen.
  rewrite (map_result_ext _
             (fun x => match utf8_decode x with
                       | Some v => Returns (JObj [("student_cwid", JStr v)])
                       | None => Raises (PyException "UnicodeDecodeError" x)
                       end))
    by (intros y; now rewrite decode_match).
  now rewrite Hm.
Qed.

(** One read handler and its status codes. *)
Lemma gate_read_statuses (h : M Response) (slug : string) (user : Personnel)
    (st : State) :
  h = roster slug user \/ h = waitlist slug user \/ h = dropped_students slug user ->
  read_statuses h st.
Proof.
  intros Hh. unfold read_statuses.
  destruct (Nat.eq_dec (count_char "_" slug) 1%nat) as [Hone|Hnot].
  - apply split_two_parts in Hone as (term & _class & Hs).
    destruct (ownership_gate DYNAMO_TABLENAMES utf8_decode h slug term _class
                user st Hh Hs) as (_ & Hnone & Hsome).
    destruct (dynamo_query (dynamo (world st)) (DYNAMO_TABLENAMES "class")
                (query_class_information_params term _class user)) eqn:Hq.
    + rewrite (Hnone eq_refl). split.
      * intros code [d Hd]. injection Hd as <- _. now right.
      * intros resp Hr. discriminate Hr.
    + split.
      * intros code Hc. exfalso. apply (Hsome ltac:(discriminate) code Hc).
      * clear Hnone Hsome.
        destruct Hh as [-> | [-> | ->]]; run_handler; rewrite Hs; simpl;
          rewrite Hq; simpl;
          match goal with
          | |- context [map_result ?f ?l] => destruct (map_result f l)
          end; simpl; intros resp Hr; try discriminate Hr;
          injection Hr as <-; reflexivity.
  - pose proof (malformed_length slug Hnot) as Hlen.
    assert (Hrun : h st = (Raises invalid_class_term, st)).
    { destruct Hh as [-> | [-> | ->]]; run_handler; now rewrite Hlen. }
    rewrite Hrun. split.
    + intros code [d Hd]. injection Hd as <- _. now left.
    + intros resp Hr. discriminate Hr.
Qed.

(** X6. Whatever the key, the caller and the stores, a read handler
    raises no [HTTPException] other than the 400 and the 404, and a
    response it returns has status 200. *)
Theorem read_handlers_statuses (slug : string) (user : Personnel) (st : State) :
  read_statuses (roster slug user) st
  /\ read_statuses (waitlist slug user) st
  /\ read_statuses (dropped_students slug user) st.
Proof.
  split; [|split]; eapply gate_read_statuses; eauto.
Qed.

(** X12. For a caller who does not own the class of the key, the only
    datastore call of a read handler is the ownership lookup: the
    enrollment table, the droplist table and the waitlist set are not
    read, and the stores are left as they were. *)
Theorem non_owner_reads_nothing (slug term _class : string)
    (user : Personnel) (st : State) :
  split "_" slug = [term; _class] ->
  ~ owns_class (dynamo (world st) !!! DYNAMO_TABLENAMES "class") term _class user ->
  let lookup := EvDynamoQuery (DYNAMO_TABLENAMES "class")
                  (query_class_information_params term _class user) in
  (emitted (roster slug user) st = [lookup]
   /\ world (snd (roster slug user st)) = world st)
  /\ (emitted (waitlist slug user) st = [lookup]
      /\ world (snd (waitlist slug user st)) = world st)
  /\ (emitted (dropped_students slug user) st = [lookup]
      /\ world (snd (dropped_students slug user st)) = world st).
Proof.
  intros Hs Hno lookup. subst lookup.
  apply class_lookup_empty in Hno.
  assert (Hgate : forall h,
             h = roster slug user \/ h = waitlist slug user
             \/ h = dropped_students slug user ->
             emitted h st
             = [EvDynamoQuery (DYNAMO_TABLENAMES "class")
                  (query_class_information_params term _class user)]
             /\ world (snd (h st)) = world st).
  { intros h Hh.
    destruct (ownership_gate DYNAMO_TABLENAMES utf8_decode h slug term _class
                user st Hh Hs) as (_ & Hnone & _).
    specialize (Hnone Hno). split; [|now rewrite Hnone].
    apply emitted_app. now rewrite Hnone. }
  split; [|split]; apply Hgate; auto.
Qed.

End ReadResults.

Lemma split_no_sep (sep : ascii) (s : string) :
  count_char sep s = 0%nat -> split sep s = [s].
Proof.
  induction s as [|a s IH]; simpl; [reflexivity|].
  destruct (Ascii.eqb a sep); [discriminate|]. simpl.
  intros Hc. now rewrite (IH Hc).
Qed.

(** Joining the pieces with the separator gives the string back, and no
    piece holds the separator. *)
Lemma join_split (sep : ascii) (s : string) :
  join sep (split sep s) = s
  /\ Forall (fun p => count_char sep p = 0%nat) (split sep s).
Proof.
  induction s as [|a s IH]; simpl; [split; [reflexivity|repeat constructor]|].
  destruct IH as [IHj IHf].
  pose proof (length_split sep s) as Hlen.
  destruct (Ascii.eqb_spec a sep) as [Heq|Hne].
  - subst a. split; [|constructor; [reflexivity|exact IHf]].
    destruct (split sep s) as [|p ps]; [discriminate Hlen|].
    change (join sep ("" :: p :: ps)) with ("" +:+ String sep (join sep (p :: ps))).
    now rewrite IHj.
  - destruct (split sep s) as [|p ps]; [discriminate Hlen|].
    apply Forall_cons in IHf as [Hp Hps]. split.
    + destruct ps as [|q qs]; [simpl in *; now rewrite IHj|].
      change (String a (join sep (p :: q :: qs)) = String a s). now rewrite IHj.
    + constructor; [|exact Hps]. simpl.
      destruct (Ascii.eqb_spec a sep) as [Heq|_]; [now destruct Hne|exact Hp].
Qed.

(** X7. The key parsing is exact: a slug splits into [term; class]
    precisely when it is term, one underscore, class, with no
    underscore inside term or class.  So the parts a read handler
    queries with are the text before and after the only underscore. *)
Theorem key_parts_exact (slug term _class : string) :
  split "_" slug = [term; _class]
  <-> slug = term +:+ "_" +:+ _class
      /\ count_char "_" term = 0%nat
      /\ count_char "_" _class = 0%nat.
Proof.
  split.
  - intros Hs. destruct (join_split "_" slug) as [Hj Hf].
    rewrite Hs in Hj, Hf. simpl in Hj.
    inversion Hf as [|? ? Ht Hf']; subst. inversion Hf' as [|? ? Hc _]; subst.
    auto.
  - intros (-> & Ht & Hc).
    induction term as [|a term IH]; simpl.
    + change ("" +:+ _class) with _class.
      now rewrite (split_no_sep "_" _class Hc).
    + simpl in Ht. destruct (Ascii.eqb a "_"); [discriminate Ht|].
      simpl in Ht. now rewrite (IH Ht).
Qed.

(** * Further properties of the administrative drop *)

Section DropResults.

Variable droplist_violation : Tables -> droplist_row -> option string.
Variable is_auto_enroll_enabled : World -> Result bool * World.
Variable enroll_students_from_waitlist : list Z -> World -> Result unit * World.

#[local] Abbreviation drop :=
  (drop_class droplist_violation is_auto_enroll_enabled enroll_students_from_waitlist).

(** The four ways a drop can go, with the state each one leaves. *)
Lemma drop_cases (c s i : Z) (st : State) :
  let t0 := working (sql (world st)) in
  let t1 := after_insert c s (clock (world st)) (after_delete c s i t0) in
  let del := EvExecute (DeleteEnrollment c s c i) in
  let ins := EvExecute (InsertDroplist c s) in
  (exists e, drop c s i st
             = (Raises e, {| world := world st; trace := trace st ++ [del] |}))
  \/ (exists msg,
        deleted_rows c s i t0 <> []
        /\ drop c s i st
           = (Raises (HTTPException HTTP_409_CONFLICT
                        (DetailTypeMsg "IntegrityError" msg)),
              {| world := with_sql (world st)
                            {| committed := committed (sql (world st));
                               working := after_delete c s i t0;
                               locked := false |};
                 trace := trace st ++ [del; ins] |}))
  \/ (locked (sql (world st)) = false
      /\ deleted_rows c s i t0 <> []
      /\ exists r w2,
           is_auto_enroll_enabled (with_sql (world st) (settled_on t1)) = (r, w2)
           /\ let tr1 := trace st ++ [del; ins; EvCommit t1;
                                      EvIsAutoEnrollEnabled (settled_on t1)] in
              match r with
              | Raises e =>
                  drop c s i st = (Raises (translated e), {| world := w2; trace := tr1 |})
              | Returns false =>
                  drop c s i st = (Returns item_deleted, {| world := w2; trace := tr1 |})
              | Returns true =>
                  exists r' w3,
                    enroll_students_from_waitlist [c] w2 = (r', w3)
                    /\ drop c s i st
                       = (match r' with
                          | Returns _ => Returns item_deleted
                          | Raises e => Raises (translated e)
                          end,
                          {| world := w3;
                             trace := tr1 ++ [EvEnrollFromWaitlist (sql w2) [c]] |})
              end).
Proof.
  intros t0 t1 del ins. subst t0 t1 del ins.
  destruct (locked (sql (world st))) eqn:Hl.
  { left. eexists. now apply drop_locked. }
  destruct (deleted_rows c s i (working (sql (world st)))) as [|e0 l0] eqn:Hd.
  { left. eexists. now apply drop_miss. }
  assert (Hsome : deleted_rows c s i (working (sql (world st))) <> [])
    by (rewrite Hd; discriminate).
  rewrite <- Hd. clear Hd.
  destruct (droplist_violation (after_delete c s i (working (sql (world st))))
              (admin_drop_row c s (clock (world st)))) as [msg|] eqn:Hv.
  { right; left. exists msg. split; [exact Hsome|]. now apply drop_conflict. }
  right; right. split; [reflexivity|]. split; [exact Hsome|].
  pose proof (drop_committed droplist_violation is_auto_enroll_enabled
                enroll_students_from_waitlist c s i st Hl Hsome Hv) as Hrun.
  cbv zeta in Hrun.
  destruct (is_auto_enroll_enabled _) as [r w2] eqn:Hflag in Hrun.
  exists r, w2. split; [exact Hflag|]. cbv zeta.
  destruct r as [[|]|e]; try exact Hrun.
  destruct (enroll_students_from_waitlist [c] w2) as [r' w3] eqn:Htrig.
  exists r', w3. split; [reflexivity|]. now destruct r'.
Qed.

(** X8. Whatever the tables, the schema and the helpers, the calls of a
    drop follow one fixed order: the delete first, then - each only
    after the one before - the insert, the commit, the flag read and the
    trigger call for [c].  Nothing is called twice, and no other call
    is made. *)
Theorem drop_calls_in_order (c s i : Z) (st : State) :
  let t1 := after_insert c s (clock (world st))
              (after_delete c s i (working (sql (world st)))) in
  exists db rest,
    emitted (drop c s i) st = EvExecute (DeleteEnrollment c s c i) :: rest
    /\ rest `prefix_of` [EvExecute (InsertDroplist c s); EvCommit t1;
                        EvIsAutoEnrollEnabled (settled_on t1);
                        EvEnrollFromWaitlist db [c]].
Proof.
  intros t1. subst t1.
  destruct (drop_cases c s i st)
    as [[e Hrun]|[(msg & _ & Hrun)|(_ & _ & r & w2 & _ & Hrun)]]; cbv zeta in Hrun.
  - exists (sql (world st)), []. split; [|eexists; reflexivity].
    apply emitted_app. now rewrite Hrun.
  - exists (sql (world st)), [EvExecute (InsertDroplist c s)].
    split; [|eexists; reflexivity]. apply emitted_app. now rewrite Hrun.
  - destruct r as [[|]|e]; [destruct Hrun as (r' & w3 & _ & Hrun)|..];
      exists (sql w2); eexists;
      (split;
       [apply emitted_app; rewrite Hrun; simpl; rewrite <- ?app_assoc; reflexivity
       |eexists; simpl; reflexivity]).
Qed.

(** X11. A drop that returns a response has committed: the response is
    the fixed 200 body, the pair was enrolled in a class of the caller,
    and the one commit of the run carries the tables without the pair
    and with its droplist row. *)
Theorem response_implies_committed (c s i : Z) (st : State) (resp : Response) :
  fst (drop c s i st) = Returns resp ->
  let t0 := working (sql (world st)) in
  resp = item_deleted
  /\ enrolled t0 c s
  /\ teaches t0 c i
  /\ commits (emitted (drop c s i) st) = [dropped c s (clock (world st)) t0].
Proof.
  intros Hret t0. subst t0.
  destruct (drop_cases c s i st)
    as [[e Hrun]|[(msg & _ & Hrun)|(_ & Hsome & r & w2 & _ & Hrun)]]; cbv zeta in Hrun.
  - rewrite Hrun in Hret. discriminate Hret.
  - rewrite Hrun in Hret. discriminate Hret.
  - destruct (deleted_rows_cause c s i _ Hsome) as [He Ht].
    rewrite (after_delete_owned c s i _ Ht) in Hrun.
    change (after_insert c s (clock (world st))
              (without_enrollment c s (working (sql (world st)))))
      with (dropped c s (clock (world st)) (working (sql (world st)))) in Hrun.
    destruct r as [[|]|e].
    + destruct Hrun as (r' & w3 & _ & Hrun).
      rewrite (emitted_app _ _ _ (eq_trans (f_equal (fun p => trace (snd p)) Hrun)
                                    (eq_sym (app_assoc _ _ _)))).
      rewrite Hrun in Hret. destruct r'; [|discriminate Hret].
      injection Hret as <-. repeat split; assumption.
    + rewrite (emitted_app _ _ _ (f_equal (fun p => trace (snd p)) Hrun)).
      rewrite Hrun in Hret. injection Hret as <-. repeat split; assumption.
    + rewrite Hrun in Hret. discriminate Hret.
Qed.

(** X9. When the flag read or the trigger raises, the caller gets that
    exception - through the [except] clause - although the drop has
    been committed: the run holds its one commit, and the handler
    undoes nothing, leaving the world as the failing call left it. *)
Theorem helper_failure_keeps_drop (c s i : Z) (st : State) (e : exn) (w2 : World) :
  let t0 := working (sql (world st)) in
  let t1 := dropped c s (clock (world st)) t0 in
  enrolled t0 c s ->
  teaches t0 c i ->
  locked (sql (world st)) = false ->
  droplist_violation (without_enrollment c s t0)
    (admin_drop_row c s (clock (world st))) = None ->
  is_auto_enroll_enabled (with_sql (world st) (settled_on t1)) = (Raises e, w2)
  \/ (exists w,
        is_auto_enroll_enabled (with_sql (world st) (settled_on t1)) = (Returns true, w)
        /\ enroll_students_from_waitlist [c] w = (Raises e, w2)) ->
  fst (drop c s i st) = Raises (translated e)
  /\ commits (emitted (drop c s i) st) = [t1]
  /\ world (snd (drop c s i st)) = w2.
Proof.
  intros t0 t1 He Ht Hl Hv Hfail. subst t0 t1.
  pose proof (drop_committed droplist_violation is_auto_enroll_enabled
                enroll_students_from_waitlist c s i st Hl
                (deleted_rows_some c s i _ He Ht)) as Hrun.
  cbv zeta in Hrun.
  rewrite (after_delete_owned c s i _ Ht) in Hrun. specialize (Hrun Hv).
  change (after_insert c s (clock (world st))
            (without_enrollment c s (working (sql (world st)))))
    with (dropped c s (clock (world st)) (working (sql (world st)))) in Hrun.
  destruct Hfail as [Hflag|(w & Hflag & Htrig)]; rewrite Hflag in Hrun.
  - rewrite (emitted_app _ _ _ (f_equal (fun p => trace (snd p)) Hrun)).
    rewrite Hrun. repeat split.
  - rewrite Htrig in Hrun.
    rewrite (emitted_app _ _ _ (eq_trans (f_equal (fun p => trace (snd p)) Hrun)
                                  (eq_sym (app_assoc _ _ _)))).
    rewrite Hrun. repeat split.
Qed.

(** A drop leaves the roster store and the waitlist store alone when
    its helper calls do. *)
Lemma drop_keeps_stores (c s i : Z) (st : State) :
  keeps_stores is_auto_enroll_enabled ->
  keeps_stores (enroll_students_from_waitlist [c]) ->
  dynamo (world (snd (drop c s i st))) = dynamo (world st)
  /\ redis (world (snd (drop c s i st))) = redis (world st).
Proof.
  intros Hkf Hkt.
  destruct (drop_cases c s i st)
    as [[e Hrun]|[(msg & _ & Hrun)|(_ & _ & r & w2 & Hflag & Hrun)]]; cbv zeta in Hrun.
  - now rewrite Hrun.
  - now rewrite Hrun.
  - pose proof (Hkf (with_sql (world st)
                       (settled_on (after_insert c s (clock (world st))
                                      (after_delete c s i (working (sql (world st))))))))
      as [Hd2 Hr2].
    rewrite Hflag in Hd2, Hr2. simpl in Hd2, Hr2.
    destruct r as [[|]|e].
    + destruct Hrun as (r' & w3 & Htrig & Hrun).
      pose proof (Hkt w2) as [Hd3 Hr3]. rewrite Htrig in Hd3, Hr3.
      simpl in Hd3, Hr3. rewrite Hrun. simpl. split; congruence.
    + rewrite Hrun. simpl. split; congruence.
    + rewrite Hrun. simpl. split; congruence.
Qed.

End DropResults.

(** * Reads and drops together *)

Section RouterResults.

Variable DYNAMO_TABLENAMES : string -> string.
Variable utf8_decode : string -> option string.
Variable droplist_violation : Tables -> droplist_row -> option string.
Variable is_auto_enroll_enabled : World -> Result bool * World.
Variable enroll_students_from_waitlist : list Z -> World -> Result unit * World.

#[local] Abbreviation dispatch :=
  (run DYNAMO_TABLENAMES utf8_decode droplist_violation is_auto_enroll_enabled
     enroll_students_from_waitlist).

(** The answer of a read is a function of the roster store and the
    waitlist store: the relational store, the clock and the trace do
    not enter. *)
Lemma read_depends_on_stores (op : operation) (st1 st2 : State) :
  is_read op = true ->
  dynamo (world st1) = dynamo (world st2) ->
  redis (world st1) = redis (world st2) ->
  fst (dispatch op st1) = fst (dispatch op st2).
Proof.
  intros Hread Hd Hr.
  destruct st1 as [[d1 r1 q1 k1] tr1], st2 as [[d2 r2 q2 k2] tr2].
  simpl in Hd, Hr. subst d2 r2.
  destruct op as [slug user | slug user | slug user | c s i];
    [| | |discriminate Hread]; simpl; run_handler;
    destruct (negb (Z.of_nat (length (split "_" slug)) =? 2)); try reflexivity;
    destruct (unpack2 (split "_" slug)) as [[term _class]|e]; try reflexivity;
    simpl; destruct (dynamo_query _ _ _); try reflexivity; simpl;
    match goal with
    | |- context [map_result ?f ?l] => destruct (map_result f l)
    end; reflexivity.
Qed.

(** X10. A drop does not show in the reads.  The drop works on the
    relational store and the reads on the roster store and the waitlist
    store, so - with helper calls that leave these two stores alone -
    each read answers after the drop exactly as it did before: a
    dropped student stays on the roster answer and does not come up in
    the droplist answer. *)
Theorem drop_invisible_to_reads (op : operation) (c s i : Z) (st : State) :
  is_read op = true ->
  keeps_stores is_auto_enroll_enabled ->
  keeps_stores (enroll_students_from_waitlist [c]) ->
  fst (dispatch op (snd (dispatch (DropClass c s i) st))) = fst (dispatch op st).
Proof.
  intros Hread Hkf Hkt.
  destruct (drop_keeps_stores droplist_violation is_auto_enroll_enabled
              enroll_students_from_waitlist c s i st Hkf Hkt) as [Hd Hr].
  now apply read_depends_on_stores.
Qed.

End RouterResults.

(** * Witnesses of the further properties *)

Lemma roster_lists_class_enrollment_witness :
  fst (get_current_enrollment sample_tablenames "fall_cs101" {| cwid := 3 |} sample_state)
  = Returns (JSONResponse 200
               (JObj [("data", JArr [JObj [("cwid", JStr "7")];
                                     JObj [("cwid", JStr "8")]])])).
Proof.
  refine (proj1 (roster_lists_class_enrollment sample_tablenames
                   "fall_cs101" "fall" "cs101" {| cwid := 3 |} sample_state
                   [AttrN 7; AttrN 8] eq_refl _ _)).
  - eexists. split; [left; reflexivity|]. repeat split.
  - vm_compute. reflexivity.
Defined.

Lemma droplist_lists_class_drops_witness :
  fst (get_droplist sample_tablenames "fall_cs101" {| cwid := 3 |} sample_state)
  = Returns (JSONResponse 200
               (JObj [("data", JArr [JObj [("student_cwid", JStr "5")]])])).
Proof.
  refine (proj1 (droplist_lists_class_drops sample_tablenames
                   "fall_cs101" "fall" "cs101" {| cwid := 3 |} sample_state
                   [AttrN 5] eq_refl _ _)).
  - eexists. split; [left; reflexivity|]. repeat split.
  - vm_compute. reflexivity.
Defined.

Lemma missing_cwid_key_error_witness :
  fst (get_droplist sample_tablenames "fall_cs101" {| cwid := 3 |} sample_state_no_cwid)
  = Raises (PyException "KeyError" "student_cwid").
Proof.
  refine (proj2 (missing_cwid_key_error sample_tablenames
                   "fall_cs101" "fall" "cs101" {| cwid := 3 |} sample_state_no_cwid
                   eq_refl _) _).
  - eexists. split; [left; reflexivity|]. repeat split.
  - eexists. split; [right; left; reflexivity|]. reflexivity.
Defined.

Lemma waitlist_shows_first_sixteen_witness :
  fst (get_waitlist sample_tablenames sample_decode "fall_cs101" {| cwid := 3 |}
         sample_state)
  = Returns (JSONResponse 200
               (JObj [("data", JArr [JObj [("student_cwid", JStr "9")];
                                     JObj [("student_cwid", JStr "10")]])])).
Proof.
  refine (proj1 (waitlist_shows_first_sixteen sample_tablenames sample_decode
                   "fall_cs101" "fall" "cs101" {| cwid := 3 |} sample_state
                   ["9"; "10"] eq_refl _ _)).
  - eexists. split; [left; reflexivity|]. repeat split.
  - vm_compute. reflexivity.
Defined.

Lemma waitlist_undecodable_member_witness :
  fst (get_waitlist sample_tablenames ascii_only "fall_cs101" {| cwid := 3 |}
         sample_state_latin1)
  = Raises (PyException "UnicodeDecodeError" (String (ascii_of_nat 233) "")).
Proof.
  destruct (waitlist_undecodable_member sample_tablenames ascii_only
              "fall_cs101" "fall" "cs101" {| cwid := 3 |} sample_state_latin1
              eq_refl) as (before & x & after & Hsplit & Hall & Hx & W).
  - eexists. split; [left; reflexivity|]. repeat split.
  - eexists. split; [right; left; reflexivity|]. reflexivity.
  - rewrite W. clear W.
    change (top_sixteen (redis (world sample_state_latin1)) ("cs101" +:+ "-" +:+ "fall"))
      with ["9"; String (ascii_of_nat 233) ""; "10"; String (ascii_of_nat 241) ""]
      in Hsplit.
    destruct before as [|b0 [|b1 before]]; simpl in Hsplit.
    + injection Hsplit as <- _. discriminate Hx.
    + injection Hsplit as _ <- _. reflexivity.
    + injection Hsplit as _ <- _.
      apply Forall_cons in Hall as [_ Hall]. apply Forall_cons in Hall as [[v Hv] _].
      discriminate Hv.
Defined.

Lemma response_implies_committed_witness :
  commits (emitted (drop_class no_constraint flag_on enroll_nine 12 7 3) sample_state)
  = [dropped 12 7 "2023-11-01 10:00:00" sample_tables].
Proof.
  refine (proj2 (proj2 (proj2 (response_implies_committed no_constraint flag_on
                                 enroll_nine 12 7 3 sample_state item_deleted _)))).
  reflexivity.
Defined.

Lemma helper_failure_keeps_drop_witness :
  fst (drop_class no_constraint flag_on enroll_fails 12 7 3 sample_state)
  = Raises (HTTPException HTTP_409_CONFLICT
              (DetailTypeMsg "IntegrityError"
                 "UNIQUE constraint failed: enrollment.class_id, enrollment.student_id"))
  /\ commits (emitted (drop_class no_constraint flag_on enroll_fails 12 7 3) sample_state)
     = [dropped 12 7 "2023-11-01 10:00:00" sample_tables].
Proof.
  destruct (helper_failure_keeps_drop no_constraint flag_on enroll_fails 12 7 3
              sample_state
              (Sqlite3Error IntegrityError
                 "UNIQUE constraint failed: enrollment.class_id, enrollment.student_id")
              (with_sql sample_world
                 (settled_on (dropped 12 7 "2023-11-01 10:00:00" sample_tables))))
    as (W1 & W2 & _).
  - now left.
  - now left.
  - reflexivity.
  - reflexivity.
  - right. eexists. split; reflexivity.
  - split; assumption.
Defined.

Lemma drop_invisible_to_reads_witness :
  fst (get_current_enrollment sample_tablenames "fall_cs101" {| cwid := 3 |}
         (snd (drop_class no_constraint flag_on enroll_nine 12 7 3 sample_state)))
  = fst (get_current_enrollment sample_tablenames "fall_cs101" {| cwid := 3 |}
           sample_state).
Proof.
  apply (drop_invisible_to_reads sample_tablenames sample_decode no_constraint
           flag_on enroll_nine
           (GetCurrentEnrollment "fall_cs101" {| cwid := 3 |}) 12 7 3 sample_state).
  - reflexivity.
  - intros w. split; reflexivity.
  - intros w. split; reflexivity.
Defined.

Lemma non_owner_reads_nothing_witness :
  emitted (get_waitlist sample_tablenames sample_decode "fall_cs101" {| cwid := 4 |})
    sample_state
  = [EvDynamoQuery "class" (query_class_information_params "fall" "cs101" {| cwid := 4 |})].
Proof.
  refine (proj1 (proj1 (proj2 (non_owner_reads_nothing sample_tablenames sample_decode
                                 "fall_cs101" "fall" "cs101" {| cwid := 4 |}
                                 sample_state eq_refl _)))).
  intros (it & Hin & _ & _ & Hi).
  vm_compute in Hin. destruct Hin as [<-|[]].
  vm_compute in Hi. discriminate Hi.
Defined.
